(** * frd-stac: the COG raster descriptor and its STAC item builder

    A shallow embedding of [frd_stac/utils/cogs.py].  Python objects live in
    a heap of attribute records, methods are computations in a state and
    exception monad, and the geospatial libraries the module calls (pyproj,
    rasterio, shapely, numpy, matplotlib, pystac, the sibling [s3_utils])
    are the fields of the class [Libraries]. *)

From Stdlib Require Import ZArith Lia.
From stdpp Require Import base gmap strings list fin_maps.

Local Open Scope Z_scope.
Local Open Scope string_scope.
Local Open Scope list_scope.

(** ** Exceptions and results *)

(** A raised [Exception]: its class name and its [str(e)]. *)
Inductive exn : Type := Exn (cls msg : string).

Definition exn_str (e : exn) : string :=
  match e with Exn _ msg => msg end.

Inductive Result (A : Type) : Type :=
| Ok (a : A)
| Raise (e : exn).
Arguments Ok {A} a.
Arguments Raise {A} e.

Definition IndexError : exn := Exn "IndexError" "list index out of range".
Definition TupleIndexError : exn := Exn "IndexError" "tuple index out of range".
Definition AttributeError (name : string) : exn :=
  Exn "AttributeError" ("object has no attribute '" +:+ name +:+ "'").
Definition NoneAttributeError (name : string) : exn :=
  Exn "AttributeError" ("'NoneType' object has no attribute '" +:+ name +:+ "'").
Definition ZeroDivisionError : exn := Exn "ZeroDivisionError" "division by zero".
Definition IntZeroDivisionError : exn :=
  Exn "ZeroDivisionError" "integer division or modulo by zero".
Definition NegativeDimensions : exn :=
  Exn "ValueError" "negative dimensions are not allowed".
Definition SqueezeError : exn :=
  Exn "ValueError"
      "cannot select an axis to squeeze out which has size not equal to one".

(** ** Strings *)

(** [s.replace(old, new)] for a non-empty [old]: every non-overlapping
    occurrence, left to right.  [skip] counts the characters of a matched
    occurrence still to be dropped. *)
Fixpoint str_replace_from (skip : nat) (old new s : string) : string :=
  match s with
  | EmptyString => EmptyString
  | String c s' =>
      match skip with
      | S k => str_replace_from k old new s'
      | O =>
          if String.prefix old s
          then new +:+ str_replace_from (String.length old - 1) old new s'
          else String c (str_replace_from O old new s')
      end
  end.

Definition str_replace (old new s : string) : string :=
  str_replace_from O old new s.

(** [old in s], for a non-empty [old]. *)
Fixpoint occurs (old s : string) : bool :=
  match s with
  | EmptyString => false
  | String _ s' => String.prefix old s || occurs old s'
  end.

(** ** Values of the libraries *)

Inductive MediaType : Type := GEOTIFF | PNG_MEDIA.

(** [pystac.MediaType] is a string enumeration. *)
Definition media_type_value (m : MediaType) : string :=
  match m with
  | GEOTIFF => "image/tiff; application=geotiff"
  | PNG_MEDIA => "image/png"
  end.

Record Asset : Type := mkAsset {
  href : string;
  media_type : MediaType;
  roles : list string }.

Inductive Resampling : Type := average.

Record Window : Type := mkWindow {
  col_off : Z; row_off : Z; win_width : Z; win_height : Z }.

Definition loc : Type := nat.

(** ** The monad of statements

    A statement runs in an interpreter state [S] and either returns a value
    or raises. *)

Definition M (S A : Type) : Type := S -> Result A * S.

Definition ret {S A} (a : A) : M S A := fun st => (Ok a, st).

Definition raise {S A} (e : exn) : M S A := fun st => (Raise e, st).

Definition bind {S A B} (m : M S A) (k : A -> M S B) : M S B :=
  fun st =>
    match m st with
    | (Ok a, st') => k a st'
    | (Raise e, st') => (Raise e, st')
    end.

(** A library call that either returns or raises, without touching the
    state. *)
Definition call {S A} (r : Result A) : M S A := fun st => (r, st).

(** [try: body  except Exception as e: handler e]; every [exn] stands for
    an instance of [Exception]. *)
Definition try_except {S A} (body : M S A) (handler : exn -> M S A) : M S A :=
  fun st =>
    match body st with
    | (Ok a, st') => (Ok a, st')
    | (Raise e, st') => handler e st'
    end.

Notation "x <- c ;; k" := (bind c (fun x => k))
  (at level 100, c at next level, right associativity).
Notation "c ;;; k" := (bind c (fun _ => k))
  (at level 100, right associativity).

(** ** The values the module handles *)

(** Python floats, [datetime] objects, the GeoJSON mapping shapely returns,
    the bytes of a PNG and [affine.Affine] matrices. *)
Class PyTypes : Type := {
  float : Type;
  datetime : Type;
  geometry : Type;
  PNG : Type;
  Affine : Type }.

Section Values.

Context `{T : PyTypes}.

(** A raster band: rows of pixels. *)
Definition band : Type := list (list float).

(** [shapely.geometry.Polygon(shell)], holding the shell it is given. *)
Inductive polygon : Type := Polygon (shell : list (list float)).

Definition vertices (p : polygon) : list (list float) :=
  match p with Polygon shell => shell end.

Record BoundingBox : Type := mkBoundingBox {
  left : float; bottom : float; right : float; top : float }.

Record CRS : Type := mkCRS { to_string : string }.

(** An opened [rasterio] dataset.  The two reads go to the file and can
    fail; the other attributes were read when the file was opened. *)
Record Dataset : Type := mkDataset {
  bounds : BoundingBox;
  crs : option CRS;
  tags : string -> gmap string string;
  res : float * float;
  width : Z;
  height : Z;
  count : nat;
  dtype : string;
  nodatavals : list (option float);
  transform : Affine;
  read_band : Z -> Result band;
  read_window : Window -> Result (list band) }.

(** What a caller may hand to the constructor as [temporal]. *)
Inductive temporal_arg : Type :=
| TNone
| TStr (s : string)
| TDatetime (d : datetime)
| TTags (t : gmap string string).

(** The attributes of a [COG] instance; [None] before [__init__] has
    assigned them. *)
Record COG : Type := mkCOG {
  uri : option string;
  _bbox : option (list float);
  temporal : option datetime;
  resolution : option (float * float);
  projection : option string;
  _footprint_4326 : option geometry;
  cmap : option string }.

Definition blank : COG := mkCOG None None None None None None None.

(** The interpreter state the module can see or change: the instances,
    how many times the clock has been read, what was printed, and the
    files written by [plt.imsave]. *)
Record State : Type := mkState {
  heap : gmap loc COG;
  ticks : nat;
  console : list string;
  files : gmap string PNG }.

Inductive property : Type :=
| PStr (s : string)
| PFloats (l : list float)
| PDict (d : gmap string string).

(** A [pystac.Item]. *)
Record Item : Type := mkItem {
  id : string;
  item_geometry : geometry;
  item_bbox : list float;
  item_datetime : datetime;
  stac_extensions : list string;
  properties : gmap string property;
  assets : gmap string Asset }.

End Values.

(** ** The world outside the module *)

Class Libraries `{T : PyTypes} : Type := {
  (** Successive readings of the UTC clock. *)
  clock : nat -> datetime;
  (** [pyproj.Transformer.from_crs(crs_from, crs_to, always_xy)], as the
      [transform] of the transformer it returns. *)
  from_crs :
    string -> string -> bool -> Result (float -> float -> float * float);
  (** [shapely.geometry.mapping]. *)
  mapping : polygon -> geometry;
  (** [rasterio.open(path)]; the [with] blocks around it release the handle
      and change nothing the module can see. *)
  rasterio_open : string -> Result Dataset;
  (** The two helpers of the sibling module [s3_utils]. *)
  get_object_datetime : string -> string -> Result datetime;
  split_s3_path : string -> Result (string * string);
  (** The [==] of two pixel values. *)
  float_eqb : float -> float -> bool;
  (** The float [a / b] of two integers, [b] not zero. *)
  int_truediv : Z -> Z -> float;
  (** [Affine.__mul__] and [Affine.scale]. *)
  affine_mul : Affine -> Affine -> Affine;
  affine_scale : float -> float -> Affine;
  (** What [np.empty] leaves in a band of the given height, width and
      dtype. *)
  uninitialized : Z -> Z -> string -> band;
  (** [rasterio.warp.reproject(source, destination, src_transform, src_crs,
      dst_transform, dst_crs, resampling)]: the new contents of
      [destination]. *)
  reproject :
    band -> band -> Affine -> option CRS -> Affine -> option CRS ->
    Resampling -> Result band;
  (** [plt.imsave(fname, arr, cmap)]: the bytes it writes to [fname]. *)
  plt_imsave : string -> band -> string -> Result PNG;
  (** [pystac.utils.datetime_to_str]. *)
  datetime_to_str : datetime -> string }.

Section Cogs.

Context `{L : Libraries}.

Abbreviation Py := (M State).

(** [datetime.now(tz=timezone.utc)]. *)
Definition now : Py datetime :=
  fun st =>
    (Ok (clock (ticks st)),
     mkState (heap st) (S (ticks st)) (console st) (files st)).

(** [print(s)]. *)
Definition print (s : string) : Py unit :=
  fun st =>
    (Ok tt, mkState (heap st) (ticks st) (console st ++ [s]) (files st)).

(** ** Attribute access *)

Definition getattr {A} (self : loc) (name : string) (f : COG -> option A)
  : Py A :=
  fun st =>
    match heap st !! self with
    | Some o =>
        match f o with
        | Some v => (Ok v, st)
        | None => (Raise (AttributeError name), st)
        end
    | None => (Raise (AttributeError name), st)
    end.

Definition setattr (self : loc) (upd : COG -> COG) : Py unit :=
  fun st =>
    match heap st !! self with
    | Some o =>
        (Ok tt,
         mkState (<[self := upd o]> (heap st)) (ticks st) (console st)
                 (files st))
    | None => (Raise (AttributeError "__dict__"), st)
    end.

Definition set_uri (v : string) (o : COG) : COG :=
  mkCOG (Some v) (_bbox o) (temporal o) (resolution o) (projection o)
        (_footprint_4326 o) (cmap o).
Definition set_bbox (v : list float) (o : COG) : COG :=
  mkCOG (uri o) (Some v) (temporal o) (resolution o) (projection o)
        (_footprint_4326 o) (cmap o).
Definition set_temporal (v : datetime) (o : COG) : COG :=
  mkCOG (uri o) (_bbox o) (Some v) (resolution o) (projection o)
        (_footprint_4326 o) (cmap o).
Definition set_resolution (v : float * float) (o : COG) : COG :=
  mkCOG (uri o) (_bbox o) (temporal o) (Some v) (projection o)
        (_footprint_4326 o) (cmap o).
Definition set_projection (v : string) (o : COG) : COG :=
  mkCOG (uri o) (_bbox o) (temporal o) (resolution o) (Some v)
        (_footprint_4326 o) (cmap o).
Definition set_footprint_4326 (v : geometry) (o : COG) : COG :=
  mkCOG (uri o) (_bbox o) (temporal o) (resolution o) (projection o)
        (Some v) (cmap o).
Definition set_cmap (v : string) (o : COG) : COG :=
  mkCOG (uri o) (_bbox o) (temporal o) (resolution o) (projection o)
        (_footprint_4326 o) (Some v).

(** [list(t)] for a pair [t]. *)
Definition list_of_pair {A} (t : A * A) : list A := [t.1; t.2].

(** [xs[i]] on a list, for a literal index [i >= 0]. *)
Definition index {A} (xs : list A) (i : nat) : Py A :=
  match xs !! i with
  | Some x => ret x
  | None => raise IndexError
  end.

(** ** class COG *)

(** The [bbox] property. *)
Definition bbox (self : loc) : Py (list float) :=
  getattr self "_bbox" _bbox.

(** The [bbox_4326] property. *)
Definition bbox_4326 (self : loc) : Py (list float) :=
  proj <- getattr self "projection" projection ;;
  transformer <- call (from_crs proj "epsg:4326" true) ;;
  b <- getattr self "_bbox" _bbox ;;
  x0 <- index b 0 ;;
  b <- getattr self "_bbox" _bbox ;;
  y0 <- index b 1 ;;
  let lo := list_of_pair (transformer x0 y0) in
  b <- getattr self "_bbox" _bbox ;;
  x1 <- index b 2 ;;
  b <- getattr self "_bbox" _bbox ;;
  y1 <- index b 3 ;;
  let hi := list_of_pair (transformer x1 y1) in
  ret (lo ++ hi).

Definition _create_footprint (self : loc) : Py polygon :=
  b <- bbox_4326 self ;; a0 <- index b 0 ;;
  b <- bbox_4326 self ;; a1 <- index b 1 ;;
  b <- bbox_4326 self ;; b0 <- index b 0 ;;
  b <- bbox_4326 self ;; b1 <- index b 3 ;;
  b <- bbox_4326 self ;; c0 <- index b 2 ;;
  b <- bbox_4326 self ;; c1 <- index b 3 ;;
  b <- bbox_4326 self ;; d0 <- index b 2 ;;
  b <- bbox_4326 self ;; d1 <- index b 1 ;;
  ret (Polygon [[a0; a1]; [b0; b1]; [c0; c1]; [d0; d1]]).

(** [COG.__init__]. *)
Definition COG_init (self : loc) (uri : string) (bbox : list float)
    (temporal : temporal_arg) (resolution : float * float)
    (projection : string) (cmap : string) : Py unit :=
  setattr self (set_uri uri) ;;;
  setattr self (set_bbox bbox) ;;;
  t <- now ;;
  setattr self (set_temporal t) ;;;
  setattr self (set_resolution resolution) ;;;
  setattr self (set_projection projection) ;;;
  p <- _create_footprint self ;;
  setattr self (set_footprint_4326 (mapping p)) ;;;
  setattr self (set_cmap cmap).

(** A new instance, with no attribute yet. *)
Definition new_object : Py loc :=
  fun st =>
    let self := fresh (dom (heap st)) in
    (Ok self,
     mkState (<[self := blank]> (heap st)) (ticks st) (console st)
             (files st)).

(** [COG(uri, bbox, temporal, resolution, projection, cmap)]. *)
Definition COG_new (uri : string) (bbox : list float)
    (temporal : temporal_arg) (resolution : float * float)
    (projection : string) (cmap : string) : Py loc :=
  self <- new_object ;;
  COG_init self uri bbox temporal resolution projection cmap ;;;
  ret self.

(** *** Reading the raster *)

(** [dataset.crs.to_string()]. *)
Definition crs_to_string (c : option CRS) : Py string :=
  match c with
  | Some c => ret (to_string c)
  | None => raise (NoneAttributeError "to_string")
  end.

(** The [try] block of [from_s3]. *)
Definition from_s3_try (bucket_name file_key cmap : string) : Py loc :=
  let s3_path := "/vsis3/" +:+ bucket_name +:+ "/" +:+ file_key in
  dataset <- call (rasterio_open s3_path) ;;
  let bbox := bounds dataset in
  projection <- crs_to_string (crs dataset) ;;
  temporal <-
    (if decide (tags dataset "TIFFTAG_DATETIME" = ∅)
     then d <- call (get_object_datetime bucket_name file_key) ;;
          ret (TDatetime d)
     else ret (TTags (tags dataset "TIFFTAG_DATETIME"))) ;;
  t <- now ;;
  COG_new ("s3://" +:+ bucket_name +:+ "/" +:+ file_key)
          [left bbox; bottom bbox; right bbox; top bbox]
          (TDatetime t) (res dataset) projection cmap.

(** [COG.from_s3]; [FRDCog.from_s3] runs the same constructor. *)
Definition from_s3 (bucket_name file_key cmap : string) : Py (option loc) :=
  try_except
    (self <- from_s3_try bucket_name file_key cmap ;; ret (Some self))
    (fun e => print ("An error occurred: " +:+ exn_str e) ;;; ret None).

(** [raster_data == nodata], element by element; no pixel equals [None]. *)
Definition np_eq (raster_data : band) (nodata : option float)
  : list (list bool) :=
  map (map (fun px =>
              match nodata with
              | Some v => float_eqb px v
              | None => false
              end)) raster_data.

(** [a.all()]. *)
Definition np_all (a : list (list bool)) : bool :=
  forallb (forallb (fun b => b)) a.

(** [t[i]] on a tuple. *)
Definition tuple_index {A} (t : list A) (i : nat) : Py A :=
  match t !! i with
  | Some x => ret x
  | None => raise TupleIndexError
  end.

(** The [try] block of [all_cells_dry]. *)
Definition all_cells_dry_try (bucket key : string) : Py bool :=
  let s3_path := "/vsis3/" +:+ bucket +:+ "/" +:+ key in
  dataset <- call (rasterio_open s3_path) ;;
  raster_data <- call (read_band dataset 1) ;;
  nodata <- tuple_index (nodatavals dataset) 0 ;;
  ret (np_all (np_eq raster_data nodata)).

(** The [all_cells_dry] property. *)
Definition all_cells_dry (self : loc) : Py (option bool) :=
  u <- getattr self "uri" uri ;;
  bk <- call (split_s3_path u) ;;
  let bucket := bk.1 in
  let key := bk.2 in
  try_except
    (b <- all_cells_dry_try bucket key ;; ret (Some b))
    (fun e => print ("An error occurred: " +:+ exn_str e) ;;; ret None).

(** *** The thumbnail *)

(** [a // b] on integers. *)
Definition floordiv (a b : Z) : Py Z :=
  if decide (b = 0) then raise IntZeroDivisionError else ret (a `div` b).

(** [a / b] on integers. *)
Definition truediv (a b : Z) : Py float :=
  if decide (b = 0) then raise ZeroDivisionError else ret (int_truediv a b).

(** [np.empty((count, h, w), dtype)]. *)
Definition np_empty (count : nat) (h w : Z) (dtype : string)
  : Py (list band) :=
  if decide (h < 0 ∨ w < 0) then raise NegativeDimensions
  else ret (replicate count (uninitialized h w dtype)).

(** [np.squeeze(a, axis=0)]. *)
Definition np_squeeze0 (a : list band) : Py band :=
  match a with
  | [b] => ret b
  | _ => raise SqueezeError
  end.

(** [plt.imsave], writing the file. *)
Definition imsave (fname : string) (arr : band) (cmap : string) : Py unit :=
  fun st =>
    match plt_imsave fname arr cmap with
    | Ok png =>
        (Ok tt,
         mkState (heap st) (ticks st) (console st)
                 (<[fname := png]> (files st)))
    | Raise e => (Raise e, st)
    end.

(** The [for i in range(1, dataset.count + 1)] loop of
    [create_thumbnail], over the values [i] still to come. *)
Fixpoint reproject_loop (dataset : Dataset) (data : list band)
    (transform' : Affine) (range : list nat) (resampled : list band)
  : Py (list band) :=
  match range with
  | [] => ret resampled
  | i :: range' =>
      source <- index data (i - 1) ;;
      destination <- index resampled (i - 1) ;;
      r <- call (reproject source destination (transform dataset)
                           (crs dataset) transform' (crs dataset)
                           average) ;;
      reproject_loop dataset data transform' range'
                     (<[(i - 1)%nat := r]> resampled)
  end.

(** What [create_thumbnail] does with the opened dataset, up to the
    resampled array. *)
Definition resample (dataset : Dataset) (factor : Z) : Py (list band) :=
  let window := mkWindow 0 0 (width dataset) (height dataset) in
  data <- call (read_window dataset window) ;;
  new_width <- floordiv (width dataset) factor ;;
  new_height <- floordiv (height dataset) factor ;;
  sx <- truediv (width dataset) new_width ;;
  sy <- truediv (height dataset) new_height ;;
  let transform' := affine_mul (transform dataset) (affine_scale sx sy) in
  resampled <- np_empty (count dataset) new_height new_width
                        (dtype dataset) ;;
  reproject_loop dataset data transform' (seq 1 (count dataset)) resampled.

(** The [try] block of [create_thumbnail]. *)
Definition create_thumbnail_try (self : loc) (thumbnail_path : string)
    (factor : Z) : Py unit :=
  u <- getattr self "uri" uri ;;
  dataset <- call (rasterio_open (str_replace "s3://" "/vsis3/" u)) ;;
  resampled <- resample dataset factor ;;
  image <- np_squeeze0 resampled ;;
  cm <- getattr self "cmap" cmap ;;
  imsave thumbnail_path image cm.

(** [COG.create_thumbnail]. *)
Definition create_thumbnail (self : loc) (thumbnail_path : string)
    (factor : Z) : Py unit :=
  try_except
    (create_thumbnail_try self thumbnail_path factor)
    (fun e => print ("An error occurred: " +:+ exn_str e)).

(** ** class FRDCog(COG) *)

(** [FRDCog.__init__] only calls [super().__init__]. *)
Definition FRDCog_init := COG_init.
Definition FRDCog_new := COG_new.

(** [item.add_asset(key, asset)]. *)
Definition add_asset (key : string) (asset : Asset) (item : Item) : Item :=
  mkItem (id item) (item_geometry item) (item_bbox item)
         (item_datetime item) (stac_extensions item) (properties item)
         (<[key := asset]> (assets item)).

Definition extension_schemas : list string :=
  ["https://stac-extensions.github.io/projection/v1.0.0/schema.json";
   "https://stac-extensions.github.io/storage/v1.0.0/schema.json";
   "https://stac-extensions.github.io/processing/v1.1.0/schema.json"].

(** The dictionary display of [properties], its keys in source order. *)
Definition item_properties (proj_bbox : list float) (proj_wkt2 : string)
    (created updated : datetime) : gmap string property :=
  <["updated" := PStr (datetime_to_str updated)]>
  (<["created" := PStr (datetime_to_str created)]>
  (<["processing:software" := PDict {["frd-to-stac" := "2023.11.04"]}]>
  (<["proj:wkt2" := PStr proj_wkt2]>
  (<["proj:bbox" := PFloats proj_bbox]>
  (<["frd:project_status" := PStr "FFRD pilot"]>
  (<["frd:project_status" := PStr "FFRD pilot"]>
  (<["frd:proj" := PStr "kanawha"]> ∅))))))).

(** [FRDCog.to_pystac_item]. *)
Definition to_pystac_item (self : loc) (item_id thumbnail_path : string)
    (new_thumbnail : bool) : Py Item :=
  geom <- getattr self "_footprint_4326" _footprint_4326 ;;
  bb <- bbox_4326 self ;;
  dt <- getattr self "temporal" temporal ;;
  proj_bbox <- bbox self ;;
  proj_wkt2 <- getattr self "projection" projection ;;
  created <- now ;;
  updated <- now ;;
  let item :=
    mkItem item_id geom bb dt extension_schemas
           (item_properties proj_bbox proj_wkt2 created updated) ∅ in
  let item := add_asset "cog" (mkAsset "grid.tif" GEOTIFF ["data"]) item in
  if new_thumbnail
  then
    create_thumbnail self thumbnail_path 4 ;;;
    ret (add_asset "thumbnail"
                   (mkAsset "thumbnail.png" PNG_MEDIA ["thumbnail"]) item)
  else ret item.

End Cogs.

(** ** Vocabulary of the properties *)

Section Shapes.

Context `{L : Libraries}.

(** The instance [__init__] leaves behind. *)
Definition constructed (uri : string) (bbox : list float)
    (t : datetime) (resolution : float * float) (projection cmap : string)
    (footprint : polygon) : COG :=
  mkCOG (Some uri) (Some bbox) (Some t) (Some resolution)
        (Some projection) (Some (mapping footprint)) (Some cmap).

(** The state after an [except] clause has printed [e]. *)
Definition reported (e : exn) (st : State) : State :=
  mkState (heap st) (ticks st)
          (console st ++ ["An error occurred: " +:+ exn_str e]) (files st).

(** The two assets [to_pystac_item] can attach. *)
Definition cog_asset : Asset := mkAsset "grid.tif" GEOTIFF ["data"].
Definition thumbnail_asset : Asset :=
  mkAsset "thumbnail.png" PNG_MEDIA ["thumbnail"].

(** A statement that leaves the interpreter state as it found it. *)
Definition stateless {A} (m : M State A) : Prop :=
  forall st, (m st).2 = st.

(** From [st] to [st'] nothing was printed, no file was written and no
    instance other than [self] was touched. *)
Definition modifies_only (self : loc) (st st' : State) : Prop :=
  console st' = console st /\
  files st' = files st /\
  forall l, l <> self -> heap st' !! l = heap st !! l.

(** The state in which [__init__] computes the footprint of [self], whose
    attributes were those of [o] when it started in [st]. *)
Definition initialising (self : loc) (o : COG) (uri : string)
    (bbox : list float) (resolution : float * float) (projection : string)
    (st : State) : State :=
  mkState
    (<[self := mkCOG (Some uri) (Some bbox) (Some (clock (ticks st)))
                     (Some resolution) (Some projection)
                     (_footprint_4326 o) (cmap o)]> (heap st))
    (S (ticks st)) (console st) (files st).

(** The state after [plt.imsave] has written [png] to [fname]. *)
Definition saved (fname : string) (png : PNG) (st : State) : State :=
  mkState (heap st) (ticks st) (console st) (<[fname := png]> (files st)).

(** The pixel [px] equals the declared nodata value. *)
Definition equals_nodata (nodata : option float) (px : float) : Prop :=
  exists v, nodata = Some v /\ float_eqb px v = true.

End Shapes.

(** ** A small world to run the module in

    Integer pixels and coordinates, a clock that counts seconds, a
    transformer that knows two projections, and a bucket with three
    rasters. *)
Module Demo.

#[export] Instance types : PyTypes := {|
  float := Z;
  datetime := Z;
  geometry := list (list Z);
  PNG := list (list Z);
  Affine := Z * Z |}.

Definition grid (v : Z) : band := replicate 4 (replicate 4 v).

Definition raster (stamp : gmap string string) (bands : list band)
  : Dataset :=
  mkDataset (mkBoundingBox 0 0 4000 4000)
            (Some (mkCRS "EPSG:26917"))
            (fun ns => if decide (ns = "TIFFTAG_DATETIME") then stamp else ∅)
            (1000, 1000) 4 4 (length bands) "int32"
            (replicate (length bands) (Some (-9999))) (1000, -1000)
            (fun i =>
               match bands !! Z.to_nat (i - 1) with
               | Some b => Ok b
               | None => Raise (Exn "IndexError" "band index out of range")
               end)
            (fun _ => Ok bands).

Definition dry_tif : Dataset := raster ∅ [grid (-9999)].

Definition wet_tif : Dataset :=
  raster {["TIFFTAG_DATETIME" := "2023:11:04 12:00:00"]}
         [<[2%nat := [-9999; 3; -9999; -9999]]> (grid (-9999))].

Definition rgb_tif : Dataset := raster ∅ [grid 10; grid 20; grid 30].

Definition last_modified : Z := 1600000000.

(** A crude stand-in for UTM zone 17N to longitude and latitude. *)
Definition utm17 (x y : Z) : Z * Z := (x `div` 1000 - 81, y `div` 1000 + 38).

#[export] Instance libraries : Libraries := {|
  clock := fun n => 1700000000 + Z.of_nat n;
  from_crs := fun crs_from _ _ =>
    if decide (crs_from = "EPSG:4326") then Ok (fun x y => (x, y))
    else if decide (crs_from = "EPSG:26917")
         then Ok utm17
         else Raise (Exn "CRSError" "Invalid projection");
  mapping := fun p => vertices p ++ take 1 (vertices p);
  rasterio_open := fun path =>
    if decide (path = "/vsis3/frd/dry.tif") then Ok dry_tif
    else if decide (path = "/vsis3/frd/wet.tif") then Ok wet_tif
    else if decide (path = "/vsis3/frd/rgb.tif") then Ok rgb_tif
    else Raise (Exn "RasterioIOError" "No such file or directory");
  get_object_datetime := fun _ _ => Ok last_modified;
  split_s3_path := fun s3_path =>
    if decide (s3_path = "s3://frd/dry.tif") then Ok ("frd", "dry.tif")
    else if decide (s3_path = "s3://frd/wet.tif") then Ok ("frd", "wet.tif")
    else if decide (s3_path = "s3://frd/rgb.tif") then Ok ("frd", "rgb.tif")
    else Raise (Exn "ValueError" "not enough values to unpack");
  float_eqb := Z.eqb;
  int_truediv := Z.div;
  affine_mul := fun a b => (a.1 * b.1, a.2 * b.2);
  affine_scale := fun sx sy => (sx, sy);
  uninitialized := fun h w _ => replicate (Z.to_nat h) (replicate (Z.to_nat w) 0);
  reproject := fun source destination _ _ _ _ _ =>
    Ok (map (fun row => map (fun _ => default 0 (head (concat source))) row)
            destination);
  plt_imsave := fun fname arr cmap =>
    if decide (cmap = "Blues") then Ok arr
    else Raise (Exn "ValueError" "not a valid value for cmap");
  datetime_to_str := fun d =>
    if decide (d < 1700000000) then "2020-09-13T12:26:40Z"
    else "2023-11-14T22:13:20Z" |}.

Definition empty_state : State := mkState ∅ 0 [] ∅.

(** The state after [COG.from_s3("frd", key, "Blues")] in the empty
    state, and the instance it returns. *)
Definition loaded (key : string) : State :=
  (from_s3 "frd" key "Blues" empty_state).2.

(** The instance made from the raster [key] of the bucket. *)
Definition cog (key : string) : COG :=
  constructed ("s3://frd/" +:+ key) [0; 0; 4000; 4000] 1700000001
              (1000, 1000) "EPSG:26917" "Blues"
              (Polygon [[-81; 38]; [-81; 42]; [-77; 42]; [-77; 38]]).

(** A direct call of the constructor, with a [temporal] of the
    caller's. *)
Definition built : Result loc * State :=
  COG_new "s3://frd/dry.tif" [0; 0; 4000; 4000] (TStr "1999-12-31")
          (1000, 1000) "EPSG:26917" "Blues" empty_state.

(** An instance whose URI is not an object of the bucket. *)
Definition local : Result loc * State :=
  COG_new "grid.tif" [0; 0; 4000; 4000] TNone (1000, 1000) "EPSG:4326"
          "Blues" empty_state.

(** The instance made from [dry.tif], after an assignment of a projection
    pyproj does not know. *)
Definition stale : State :=
  (setattr 0%nat (set_projection "EPSG:0") (loaded "dry.tif")).2.

(** A raster that declares no nodata value and carries no tag. *)
Definition plain_tif : Dataset :=
  mkDataset (mkBoundingBox 0 0 4000 4000) (Some (mkCRS "EPSG:26917"))
            (fun _ => ∅) (1000, 1000) 4 4 1 "int32" [None] (1000, -1000)
            (fun _ => Ok (grid 7)) (fun _ => Ok [grid 7]).

(** The same world, where every key of the bucket holds [plain_tif] and
    the last-modified time of an object cannot be fetched. *)
Definition offline : Libraries := {|
  clock := clock (Libraries := libraries);
  from_crs := from_crs (Libraries := libraries);
  mapping := mapping (Libraries := libraries);
  rasterio_open := fun _ => Ok plain_tif;
  get_object_datetime := fun _ _ => Raise (Exn "ClientError" "Access Denied");
  split_s3_path := split_s3_path (Libraries := libraries);
  float_eqb := float_eqb (Libraries := libraries);
  int_truediv := int_truediv (Libraries := libraries);
  affine_mul := affine_mul (Libraries := libraries);
  affine_scale := affine_scale (Libraries := libraries);
  uninitialized := uninitialized (Libraries := libraries);
  reproject := reproject (Libraries := libraries);
  plt_imsave := plt_imsave (Libraries := libraries);
  datetime_to_str := datetime_to_str (Libraries := libraries) |}.

End Demo.

(** * Properties *)

Section MonadLaws.

Context {S A B : Type}.

Lemma bind_ok (m : M S A) (k : A -> M S B) st a st' :
  m st = (Ok a, st') -> bind m k st = k a st'.
Proof. unfold bind. intros ->. reflexivity. Qed.

Lemma bind_raise (m : M S A) (k : A -> M S B) st e st' :
  m st = (Raise e, st') -> bind m k st = (Raise e, st').
Proof. unfold bind. intros ->. reflexivity. Qed.

Lemma bind_inv_ok (m : M S A) (k : A -> M S B) st b st2 :
  bind m k st = (Ok b, st2) ->
  exists a st1, m st = (Ok a, st1) /\ k a st1 = (Ok b, st2).
Proof.
  unfold bind. destruct (m st) as [[a|e] st1]; intros H.
  - exists a, st1. split; [reflexivity | exact H].
  - discriminate H.
Qed.

Lemma ret_inv (a b : A) (st st' : S) :
  ret a st = (Ok b, st') -> b = a /\ st' = st.
Proof. unfold ret. intros H. injection H as <- <-. split; reflexivity. Qed.

Lemma call_inv (r : Result A) (a : A) (st st' : S) :
  call r st = (Ok a, st') -> r = Ok a /\ st' = st.
Proof. unfold call. intros H. injection H as -> <-. split; reflexivity. Qed.

Lemma try_except_ok (body : M S A) handler st a st' :
  body st = (Ok a, st') -> try_except body handler st = (Ok a, st').
Proof. unfold try_except. intros ->. reflexivity. Qed.

Lemma try_except_raise (body : M S A) handler st e st' :
  body st = (Raise e, st') -> try_except body handler st = handler e st'.
Proof. unfold try_except. intros ->. reflexivity. Qed.

End MonadLaws.

Ltac bind_inv H :=
  let a := fresh "a" in
  let st := fresh "st" in
  let Ha := fresh "Ha" in
  apply bind_inv_ok in H as (a & st & Ha & H).

Section Proofs.

Context `{L : Libraries}.

Implicit Types (self : loc) (st : State) (o : COG).

(** *** Attributes and indexing *)

Lemma getattr_ok {A} self name (f : COG -> option A) st o v :
  heap st !! self = Some o -> f o = Some v ->
  getattr self name f st = (Ok v, st).
Proof. unfold getattr. intros -> ->. reflexivity. Qed.

Lemma getattr_pure {A} self name (f : COG -> option A) st :
  (getattr self name f st).2 = st.
Proof.
  unfold getattr. destruct (heap st !! self) as [o|]; [|reflexivity].
  destruct (f o); reflexivity.
Qed.

Lemma getattr_inv {A} self name (f : COG -> option A) st v st' :
  getattr self name f st = (Ok v, st') ->
  st' = st /\ exists o, heap st !! self = Some o /\ f o = Some v.
Proof.
  unfold getattr. destruct (heap st !! self) as [o|]; [|discriminate].
  destruct (f o) as [w|] eqn:E; [|discriminate].
  intros H. injection H as <- <-. split; [reflexivity|]. exists o. auto.
Qed.

Lemma index_ok {A} (xs : list A) i x st :
  xs !! i = Some x -> index xs i st = (Ok x, st).
Proof. unfold index. intros ->. reflexivity. Qed.

Lemma index_pure {A} (xs : list A) i st : (index xs i st).2 = st.
Proof. unfold index. destruct (xs !! i); reflexivity. Qed.

Lemma index_inv {A} (xs : list A) i x st st' :
  index xs i st = (Ok x, st') -> st' = st /\ xs !! i = Some x.
Proof.
  unfold index. destruct (xs !! i) as [y|]; [|discriminate].
  intros H. apply ret_inv in H as [-> ->]. auto.
Qed.

(** *** The geographic bounding box *)

Lemma bbox_4326_ok self st o proj tr b x0 y0 x1 y1 :
  heap st !! self = Some o ->
  projection o = Some proj ->
  from_crs proj "epsg:4326" true = Ok tr ->
  _bbox o = Some b ->
  b !! 0%nat = Some x0 -> b !! 1%nat = Some y0 ->
  b !! 2%nat = Some x1 -> b !! 3%nat = Some y1 ->
  bbox_4326 self st =
    (Ok [(tr x0 y0).1; (tr x0 y0).2; (tr x1 y1).1; (tr x1 y1).2], st).
Proof.
  intros Ho Hp Ht Hb H0 H1 H2 H3. unfold bbox_4326.
  rewrite (bind_ok _ _ _ _ _ (getattr_ok _ _ _ _ _ _ Ho Hp)).
  unfold call at 1. rewrite Ht. unfold bind at 1.
  repeat (rewrite (bind_ok _ _ _ _ _ (getattr_ok _ _ _ _ _ _ Ho Hb));
          first [ rewrite (bind_ok _ _ _ _ _ (index_ok _ _ _ _ H0))
                | rewrite (bind_ok _ _ _ _ _ (index_ok _ _ _ _ H1))
                | rewrite (bind_ok _ _ _ _ _ (index_ok _ _ _ _ H2))
                | rewrite (bind_ok _ _ _ _ _ (index_ok _ _ _ _ H3)) ]).
  reflexivity.
Qed.

Lemma bbox_4326_inv self st b4 st' :
  bbox_4326 self st = (Ok b4, st') ->
  st' = st /\
  exists o proj tr b x0 y0 x1 y1,
    heap st !! self = Some o /\ projection o = Some proj /\
    from_crs proj "epsg:4326" true = Ok tr /\ _bbox o = Some b /\
    b !! 0%nat = Some x0 /\ b !! 1%nat = Some y0 /\
    b !! 2%nat = Some x1 /\ b !! 3%nat = Some y1 /\
    b4 = [(tr x0 y0).1; (tr x0 y0).2; (tr x1 y1).1; (tr x1 y1).2].
Proof.
  unfold bbox_4326. intros H.
  bind_inv H. apply getattr_inv in Ha as (-> & o & Ho & Hp).
  bind_inv H. apply call_inv in Ha as (Ht & ->).
  bind_inv H. apply getattr_inv in Ha as (-> & o0 & Ho0 & Hb0).
  bind_inv H. apply index_inv in Ha as (-> & H0).
  bind_inv H. apply getattr_inv in Ha as (-> & o1 & Ho1 & Hb1).
  bind_inv H. apply index_inv in Ha as (-> & H1).
  bind_inv H. apply getattr_inv in Ha as (-> & o2 & Ho2 & Hb2).
  bind_inv H. apply index_inv in Ha as (-> & H2).
  bind_inv H. apply getattr_inv in Ha as (-> & o3 & Ho3 & Hb3).
  bind_inv H. apply index_inv in Ha as (-> & H3).
  apply ret_inv in H as (-> & ->).
  assert (o0 = o) by congruence. assert (o1 = o) by congruence.
  assert (o2 = o) by congruence. assert (o3 = o) by congruence. subst.
  assert (a3 = a1) by congruence. assert (a5 = a1) by congruence.
  assert (a7 = a1) by congruence. subst.
  split; [reflexivity|].
  exists o, a, a0, a1, a2, a4, a6, a8. repeat split; assumption.
Qed.

Lemma bbox_4326_pure self st : (bbox_4326 self st).2 = st.
Proof.
  destruct (bbox_4326 self st) as [[b|e] st'] eqn:E.
  - apply bbox_4326_inv in E as [-> _]. reflexivity.
  - revert E. unfold bbox_4326, bind, call.
    repeat match goal with
           | |- context [getattr ?s ?n ?f ?t] =>
               let H := fresh in
               pose proof (getattr_pure s n f t) as H;
               destruct (getattr s n f t) as [[?|?] ?]; simpl in H; subst
           | |- context [index ?xs ?i ?t] =>
               let H := fresh in
               pose proof (index_pure xs i t) as H;
               destruct (index xs i t) as [[?|?] ?]; simpl in H; subst
           | |- context [from_crs ?a ?b ?c] => destruct (from_crs a b c)
           end;
      intros H; injection H as <- <-; reflexivity.
Qed.

(** C2: with native bounding box [[minx; miny; maxx; maxy]] and a
    projection pyproj accepts, [bbox_4326] is the always-xy transform to
    EPSG:4326 of the corner (minx, miny) followed by that of the corner
    (maxx, maxy): four numbers. *)
Theorem bbox_4326_transforms_corners
    self st o proj tr (minx miny maxx maxy : float) :
  heap st !! self = Some o ->
  _bbox o = Some [minx; miny; maxx; maxy] ->
  projection o = Some proj ->
  from_crs proj "epsg:4326" true = Ok tr ->
  exists b,
    bbox_4326 self st = (Ok b, st) /\
    b = list_of_pair (tr minx miny) ++ list_of_pair (tr maxx maxy) /\
    length b = 4%nat.
Proof.
  intros Ho Hb Hp Ht. eexists. split; [|split].
  - eapply bbox_4326_ok; eauto.
  - reflexivity.
  - reflexivity.
Qed.

(** C9: reading [bbox_4326] leaves the interpreter state as it was, so
    every attribute of the instance too, and reading it again gives the
    same result. *)
Theorem bbox_4326_deterministic_side_effect_free self st :
  (bbox_4326 self st).2 = st /\
  heap (bbox_4326 self st).2 !! self = heap st !! self /\
  (bbox_4326 self (bbox_4326 self st).2).1 = (bbox_4326 self st).1.
Proof.
  pose proof (bbox_4326_pure self st) as H.
  split; [exact H|]. rewrite H. split; reflexivity.
Qed.

(** *** The footprint *)

Lemma create_footprint_ok self st (x0 y0 x1 y1 : float) :
  bbox_4326 self st = (Ok [x0; y0; x1; y1], st) ->
  _create_footprint self st =
    (Ok (Polygon [[x0; y0]; [x0; y1]; [x1; y1]; [x1; y0]]), st).
Proof.
  intros H. unfold _create_footprint.
  repeat (rewrite (bind_ok _ _ _ _ _ H);
          erewrite bind_ok; [| apply index_ok; reflexivity]).
  reflexivity.
Qed.

Lemma create_footprint_inv self st p st' :
  _create_footprint self st = (Ok p, st') ->
  st' = st /\
  exists x0 y0 x1 y1,
    bbox_4326 self st = (Ok [x0; y0; x1; y1], st) /\
    p = Polygon [[x0; y0]; [x0; y1]; [x1; y1]; [x1; y0]].
Proof.
  intros H. pose proof H as H'. unfold _create_footprint in H'.
  bind_inv H'. pose proof Ha as Hb.
  apply bbox_4326_inv in Hb
    as (-> & o & proj & tr & b & x0 & y0 & x1 & y1 & _ & _ & _ & _ & _ & _
        & _ & _ & ->).
  rewrite (create_footprint_ok _ _ _ _ _ _ Ha) in H.
  injection H as <- <-. split; [reflexivity|]. eauto 10.
Qed.

(** *** The constructor *)

Lemma setattr_ok self upd st o :
  heap st !! self = Some o ->
  setattr self upd st =
    (Ok tt,
     mkState (<[self := upd o]> (heap st)) (ticks st) (console st)
             (files st)).
Proof. unfold setattr. intros ->. reflexivity. Qed.

Lemma setattr_inv self upd st u st' :
  setattr self upd st = (Ok u, st') ->
  exists o, heap st !! self = Some o /\
    st' = mkState (<[self := upd o]> (heap st)) (ticks st) (console st)
                  (files st).
Proof.
  unfold setattr. destruct (heap st !! self) as [o|]; [|discriminate].
  intros H. injection H as <- <-. eauto.
Qed.

Lemma COG_init_ok self st o uri bbox temporal resolution projection cmap
    tr x0 y0 x1 y1 :
  heap st !! self = Some o ->
  from_crs projection "epsg:4326" true = Ok tr ->
  bbox !! 0%nat = Some x0 -> bbox !! 1%nat = Some y0 ->
  bbox !! 2%nat = Some x1 -> bbox !! 3%nat = Some y1 ->
  COG_init self uri bbox temporal resolution projection cmap st =
    (Ok tt,
     mkState
       (<[self :=
            constructed uri bbox (clock (ticks st)) resolution projection
              cmap
              (Polygon [[(tr x0 y0).1; (tr x0 y0).2];
                        [(tr x0 y0).1; (tr x1 y1).2];
                        [(tr x1 y1).1; (tr x1 y1).2];
                        [(tr x1 y1).1; (tr x0 y0).2]])]> (heap st))
       (S (ticks st)) (console st) (files st)).
Proof.
  intros Ho Ht H0 H1 H2 H3. unfold COG_init.
  erewrite bind_ok; [| apply setattr_ok; eassumption].
  erewrite bind_ok; [| apply setattr_ok; simpl; apply lookup_insert_eq].
  unfold now at 1. unfold bind at 1. cbn [heap ticks console files].
  erewrite bind_ok; [| apply setattr_ok; simpl; apply lookup_insert_eq].
  erewrite bind_ok; [| apply setattr_ok; simpl; apply lookup_insert_eq].
  erewrite bind_ok; [| apply setattr_ok; simpl; apply lookup_insert_eq].
  erewrite bind_ok;
    [| apply create_footprint_ok;
       eapply bbox_4326_ok;
       [ simpl; apply lookup_insert_eq | reflexivity | exact Ht
       | reflexivity | exact H0 | exact H1 | exact H2 | exact H3 ] ].
  erewrite bind_ok; [| apply setattr_ok; simpl; apply lookup_insert_eq].
  erewrite setattr_ok; [| simpl; apply lookup_insert_eq].
  cbn [heap ticks console files]. rewrite !insert_insert_eq.
  reflexivity.
Qed.

Lemma COG_init_inv self st uri bbox temporal resolution projection cmap
    u st' :
  COG_init self uri bbox temporal resolution projection cmap st
    = (Ok u, st') ->
  exists o tr x0 y0 x1 y1,
    heap st !! self = Some o /\
    from_crs projection "epsg:4326" true = Ok tr /\
    bbox !! 0%nat = Some x0 /\ bbox !! 1%nat = Some y0 /\
    bbox !! 2%nat = Some x1 /\ bbox !! 3%nat = Some y1.
Proof.
  unfold COG_init. intros H.
  bind_inv H. apply setattr_inv in Ha as (o & Ho & ->).
  bind_inv H. apply setattr_inv in Ha as (o1 & Ho1 & ->).
  bind_inv H. unfold now in Ha. injection Ha as <- <-.
  bind_inv H. apply setattr_inv in Ha as (o2 & Ho2 & ->).
  bind_inv H. apply setattr_inv in Ha as (o3 & Ho3 & ->).
  bind_inv H. apply setattr_inv in Ha as (o4 & Ho4 & ->).
  bind_inv H. clear H.
  apply create_footprint_inv in Ha as (_ & c0 & c1 & c2 & c3 & Hb & _).
  apply bbox_4326_inv in Hb
    as (_ & o5 & proj & tr & b & x0 & y0 & x1 & y1 & Ho5 & Hp & Ht & Hb
        & H0 & H1 & H2 & H3 & _).
  cbn [heap ticks console files] in *.
  rewrite lookup_insert_eq in Ho1, Ho2, Ho3, Ho4, Ho5.
  injection Ho1 as <-. injection Ho2 as <-. injection Ho3 as <-.
  injection Ho4 as <-. injection Ho5 as <-.
  cbn in Hp, Hb. injection Hp as <-. injection Hb as <-.
  exists o, tr, x0, y0, x1, y1. auto 10.
Qed.

Lemma COG_new_ok st uri bbox temporal resolution projection cmap
    tr x0 y0 x1 y1 :
  from_crs projection "epsg:4326" true = Ok tr ->
  bbox !! 0%nat = Some x0 -> bbox !! 1%nat = Some y0 ->
  bbox !! 2%nat = Some x1 -> bbox !! 3%nat = Some y1 ->
  COG_new uri bbox temporal resolution projection cmap st =
    (Ok (fresh (dom (heap st))),
     mkState
       (<[fresh (dom (heap st)) :=
            constructed uri bbox (clock (ticks st)) resolution projection
              cmap
              (Polygon [[(tr x0 y0).1; (tr x0 y0).2];
                        [(tr x0 y0).1; (tr x1 y1).2];
                        [(tr x1 y1).1; (tr x1 y1).2];
                        [(tr x1 y1).1; (tr x0 y0).2]])]> (heap st))
       (S (ticks st)) (console st) (files st)).
Proof.
  intros Ht H0 H1 H2 H3. unfold COG_new.
  unfold new_object at 1. unfold bind at 1.
  erewrite bind_ok;
    [| eapply COG_init_ok; eauto; simpl; apply lookup_insert_eq].
  cbn [heap ticks console files]. rewrite insert_insert_eq. reflexivity.
Qed.

Lemma COG_new_inv st uri bbox temporal resolution projection cmap
    self st' :
  COG_new uri bbox temporal resolution projection cmap st
    = (Ok self, st') ->
  exists tr x0 y0 x1 y1,
    from_crs projection "epsg:4326" true = Ok tr /\
    bbox !! 0%nat = Some x0 /\ bbox !! 1%nat = Some y0 /\
    bbox !! 2%nat = Some x1 /\ bbox !! 3%nat = Some y1.
Proof.
  unfold COG_new. intros H.
  bind_inv H. bind_inv H.
  apply COG_init_inv in Ha0
    as (o & tr & x0 & y0 & x1 & y1 & _ & Ht & H0 & H1 & H2 & H3).
  exists tr, x0, y0, x1, y1. auto 10.
Qed.

(** C1: the constructor stores as [temporal] the reading of the clock it
    takes itself; whatever the caller passes as [temporal] changes
    neither the instance nor anything else. *)
Theorem COG_temporal_is_construction_time
    uri bbox resolution projection cmap st :
  (forall t1 t2,
      COG_new uri bbox t1 resolution projection cmap st =
      COG_new uri bbox t2 resolution projection cmap st) /\
  (forall t self st',
      COG_new uri bbox t resolution projection cmap st = (Ok self, st') ->
      exists o,
        heap st' !! self = Some o /\
        temporal o = Some (clock (ticks st))).
Proof.
  split; [reflexivity|].
  intros t self st' H. pose proof H as H'.
  apply COG_new_inv in H' as (tr & x0 & y0 & x1 & y1 & Ht & H0 & H1 & H2 & H3).
  rewrite (COG_new_ok _ _ _ _ _ _ _ _ _ _ _ _ Ht H0 H1 H2 H3) in H.
  injection H as <- <-. eexists. split.
  - cbn [heap]. apply lookup_insert_eq.
  - reflexivity.
Qed.

(** C3: the footprint a constructed instance caches is the mapping of a
    polygon built from exactly four vertices, the corners of its
    geographic bounding box in the order (minx, miny), (minx, maxy),
    (maxx, maxy), (maxx, miny). *)
Theorem footprint_is_bbox_4326_rectangle
    uri bbox t resolution projection cmap st self st' :
  COG_new uri bbox t resolution projection cmap st = (Ok self, st') ->
  exists o footprint minx miny maxx maxy,
    heap st' !! self = Some o /\
    bbox_4326 self st' = (Ok [minx; miny; maxx; maxy], st') /\
    _create_footprint self st' = (Ok footprint, st') /\
    _footprint_4326 o = Some (mapping footprint) /\
    vertices footprint =
      [[minx; miny]; [minx; maxy]; [maxx; maxy]; [maxx; miny]] /\
    length (vertices footprint) = 4%nat.
Proof.
  intros H. pose proof H as H'.
  apply COG_new_inv in H' as (tr & x0 & y0 & x1 & y1 & Ht & H0 & H1 & H2 & H3).
  rewrite (COG_new_ok _ _ _ _ _ _ _ _ _ _ _ _ Ht H0 H1 H2 H3) in H.
  injection H as <- <-.
  match goal with
  | |- context [<[_ := ?c]> _] => set (obj := c)
  end.
  assert (Hb : bbox_4326 (fresh (dom (heap st)))
                 (mkState (<[fresh (dom (heap st)) := obj]> (heap st))
                          (S (ticks st)) (console st) (files st))
               = (Ok [(tr x0 y0).1; (tr x0 y0).2;
                      (tr x1 y1).1; (tr x1 y1).2],
                  mkState (<[fresh (dom (heap st)) := obj]> (heap st))
                          (S (ticks st)) (console st) (files st))).
  { eapply bbox_4326_ok;
      [ cbn [heap]; apply lookup_insert_eq | reflexivity | exact Ht
      | reflexivity | exact H0 | exact H1 | exact H2 | exact H3 ]. }
  exists obj. eexists. exists (tr x0 y0).1, (tr x0 y0).2, (tr x1 y1).1, (tr x1 y1).2.
  split; [cbn [heap]; apply lookup_insert_eq|].
  split; [exact Hb|].
  split; [apply create_footprint_ok; exact Hb|].
  split; [reflexivity|]. split; reflexivity.
Qed.

(** *** The factory *)

Lemma from_s3_try_inv bucket_name file_key cmap st self st' :
  from_s3_try bucket_name file_key cmap st = (Ok self, st') ->
  exists dataset c tr,
    rasterio_open ("/vsis3/" +:+ bucket_name +:+ "/" +:+ file_key)
      = Ok dataset /\
    crs dataset = Some c /\
    from_crs (to_string c) "epsg:4326" true = Ok tr /\
    (tags dataset "TIFFTAG_DATETIME" = ∅ ->
     exists d, get_object_datetime bucket_name file_key = Ok d) /\
    self = fresh (dom (heap st)) /\
    st' =
      mkState
        (<[self :=
             constructed ("s3://" +:+ bucket_name +:+ "/" +:+ file_key)
               [left (bounds dataset); bottom (bounds dataset);
                right (bounds dataset); top (bounds dataset)]
               (clock (S (ticks st))) (res dataset) (to_string c) cmap
               (Polygon
                  (let lo := tr (left (bounds dataset))
                                (bottom (bounds dataset)) in
                   let hi := tr (right (bounds dataset))
                                (top (bounds dataset)) in
                   [[lo.1; lo.2]; [lo.1; hi.2]; [hi.1; hi.2];
                    [hi.1; lo.2]]))]> (heap st))
        (S (S (ticks st))) (console st) (files st).
Proof.
  unfold from_s3_try. intros H.
  bind_inv H. apply call_inv in Ha as (Hopen & ->).
  bind_inv H. unfold crs_to_string in Ha.
  destruct (crs a) as [c|] eqn:Hcrs; [|discriminate].
  apply ret_inv in Ha as (-> & ->).
  bind_inv H.
  assert (Hst : st0 = st /\
                (tags a "TIFFTAG_DATETIME" = ∅ ->
                 exists d, get_object_datetime bucket_name file_key = Ok d)).
  { destruct (decide (tags a "TIFFTAG_DATETIME" = ∅)) as [E|E].
    - bind_inv Ha. apply call_inv in Ha0 as (Hd & ->).
      apply ret_inv in Ha as (_ & ->). eauto.
    - apply ret_inv in Ha as (_ & ->). split; [reflexivity|]. tauto. }
  destruct Hst as (-> & Hfallback). clear Ha.
  bind_inv H. unfold now in Ha. injection Ha as <- <-.
  pose proof H as H'.
  apply COG_new_inv in H'
    as (tr & x0 & y0 & x1 & y1 & Ht & H0 & H1 & H2 & H3).
  rewrite (COG_new_ok _ _ _ _ _ _ _ _ _ _ _ _ Ht H0 H1 H2 H3) in H.
  cbn in H0, H1, H2, H3.
  injection H0 as <-. injection H1 as <-.
  injection H2 as <-. injection H3 as <-.
  injection H as <- <-.
  exists a, c, tr. cbn [heap ticks console files].
  repeat split; auto.
Qed.

Lemma print_eq s st :
  print s st =
    (Ok tt, mkState (heap st) (ticks st) (console st ++ [s]) (files st)).
Proof. reflexivity. Qed.

Lemma from_s3_on_raise bucket_name file_key cmap st e st1 :
  from_s3_try bucket_name file_key cmap st = (Raise e, st1) ->
  from_s3 bucket_name file_key cmap st = (Ok None, reported e st1).
Proof.
  intros H. unfold from_s3.
  erewrite try_except_raise; [| erewrite bind_raise; eauto].
  reflexivity.
Qed.

Lemma from_s3_on_ok bucket_name file_key cmap st self st1 :
  from_s3_try bucket_name file_key cmap st = (Ok self, st1) ->
  from_s3 bucket_name file_key cmap st = (Ok (Some self), st1).
Proof.
  intros H. unfold from_s3.
  erewrite try_except_ok; [reflexivity|].
  erewrite bind_ok; eauto.
Qed.

(** C5: [from_s3] never raises.  When a step of its [try] block raises,
    whichever it is, the error is printed and the result is [None]; and
    [None] is returned in no other case. *)
Theorem from_s3_failure_is_None bucket_name file_key cmap st :
  (exists r st', from_s3 bucket_name file_key cmap st = (Ok r, st')) /\
  (forall e st1,
      from_s3_try bucket_name file_key cmap st = (Raise e, st1) ->
      from_s3 bucket_name file_key cmap st = (Ok None, reported e st1)) /\
  (forall st',
      from_s3 bucket_name file_key cmap st = (Ok None, st') ->
      exists e st1,
        from_s3_try bucket_name file_key cmap st = (Raise e, st1)).
Proof.
  split; [|split].
  - destruct (from_s3_try bucket_name file_key cmap st)
      as [[self|e] st1] eqn:E.
    + rewrite (from_s3_on_ok _ _ _ _ _ _ E). eauto.
    + rewrite (from_s3_on_raise _ _ _ _ _ _ E). eauto.
  - intros e st1. apply from_s3_on_raise.
  - intros st' H.
    destruct (from_s3_try bucket_name file_key cmap st)
      as [[self|e] st1] eqn:E.
    + rewrite (from_s3_on_ok _ _ _ _ _ _ E) in H. discriminate H.
    + eauto.
Qed.

(** The steps of the [try] block that can fail, one by one. *)
Lemma from_s3_try_failures bucket_name file_key cmap st :
  let path := "/vsis3/" +:+ bucket_name +:+ "/" +:+ file_key in
  (forall e, rasterio_open path = Raise e ->
             from_s3_try bucket_name file_key cmap st = (Raise e, st)) /\
  (forall dataset, rasterio_open path = Ok dataset ->
     crs dataset = None ->
     from_s3_try bucket_name file_key cmap st
       = (Raise (NoneAttributeError "to_string"), st)) /\
  (forall dataset c e, rasterio_open path = Ok dataset ->
     crs dataset = Some c ->
     tags dataset "TIFFTAG_DATETIME" = ∅ ->
     get_object_datetime bucket_name file_key = Raise e ->
     from_s3_try bucket_name file_key cmap st = (Raise e, st)).
Proof.
  intros path. unfold from_s3_try. fold path. repeat split.
  - intros e He. unfold call, bind. rewrite He. reflexivity.
  - intros dataset Hd Hc. unfold call, bind. rewrite Hd.
    unfold crs_to_string. rewrite Hc. reflexivity.
  - intros dataset c e Hd Hc Ht He. unfold call, bind. rewrite Hd.
    unfold crs_to_string. rewrite Hc. unfold ret at 1.
    destruct (decide (tags dataset "TIFFTAG_DATETIME" = ∅)) as [_|N];
      [|contradiction].
    rewrite He. reflexivity.
Qed.

(** The capture time of an instance made by [from_s3] is the second
    reading of the clock, whatever the raster's tags and the object's
    last-modified time. *)
Lemma from_s3_temporal bucket_name file_key cmap st self st' :
  from_s3 bucket_name file_key cmap st = (Ok (Some self), st') ->
  exists o, heap st' !! self = Some o /\
            temporal o = Some (clock (S (ticks st))).
Proof.
  intros H.
  destruct (from_s3_try bucket_name file_key cmap st) as [[s|e] st1] eqn:E.
  - rewrite (from_s3_on_ok _ _ _ _ _ _ E) in H. injection H as -> ->.
    apply from_s3_try_inv in E
      as (dataset & c & tr & _ & _ & _ & _ & _ & ->).
    eexists. split; [cbn [heap]; apply lookup_insert_eq | reflexivity].
  - rewrite (from_s3_on_raise _ _ _ _ _ _ E) in H. discriminate H.
Qed.

(** *** Dry rasters *)

Lemma forallb_map_true {A B} (g : B -> bool) (h : A -> B) (P : A -> Prop)
    (l : list A) :
  (forall x, g (h x) = true <-> P x) ->
  forallb g (map h l) = true <-> Forall P l.
Proof.
  intros Hx. induction l as [|x l IH]; simpl.
  - split; [constructor | reflexivity].
  - rewrite andb_true_iff, Hx, IH. split.
    + intros [? ?]. constructor; assumption.
    + intros H. inversion H; subst. split; assumption.
Qed.

Lemma forallb_map_false {A B} (g : B -> bool) (h : A -> B) (Q : A -> Prop)
    (l : list A) :
  (forall x, g (h x) = false <-> Q x) ->
  forallb g (map h l) = false <-> Exists Q l.
Proof.
  intros Hx. induction l as [|x l IH]; simpl.
  - split; [discriminate | intros H; inversion H].
  - rewrite andb_false_iff, Hx, IH. split.
    + intros [?|?]; [left | right]; assumption.
    + intros H. inversion H; subst; [left | right]; assumption.
Qed.

Lemma pixel_eq_true (nodata : option float) (px : float) :
  match nodata with Some v => float_eqb px v | None => false end = true
  <-> equals_nodata nodata px.
Proof.
  unfold equals_nodata. destruct nodata as [v|]; split.
  - intros H. exists v. auto.
  - intros (w & Hw & H). injection Hw as <-. exact H.
  - discriminate.
  - intros (w & Hw & _). discriminate Hw.
Qed.

Lemma pixel_eq_false (nodata : option float) (px : float) :
  match nodata with Some v => float_eqb px v | None => false end = false
  <-> ~ equals_nodata nodata px.
Proof.
  rewrite <- pixel_eq_true.
  destruct (match nodata with Some v => float_eqb px v | None => false end);
    split; congruence.
Qed.

Lemma np_all_eq_true (data : band) nodata :
  np_all (np_eq data nodata) = true
  <-> Forall (Forall (equals_nodata nodata)) data.
Proof.
  unfold np_all, np_eq. apply forallb_map_true. intros row.
  apply forallb_map_true. intros px. apply pixel_eq_true.
Qed.

Lemma np_all_eq_false (data : band) nodata :
  np_all (np_eq data nodata) = false
  <-> Exists (Exists (fun px => ~ equals_nodata nodata px)) data.
Proof.
  unfold np_all, np_eq. apply forallb_map_false. intros row.
  apply forallb_map_false. intros px. apply pixel_eq_false.
Qed.

(** C7: for an instance whose URI splits into a bucket and a key,
    [all_cells_dry] is [True] exactly when every pixel of band 1 equals
    the declared nodata value and [False] exactly when some pixel does
    not; when opening or reading the raster raises, the error is printed
    and the result is [None]. *)
Theorem all_cells_dry_spec self st o u bucket key :
  heap st !! self = Some o ->
  uri o = Some u ->
  split_s3_path u = Ok (bucket, key) ->
  let path := "/vsis3/" +:+ bucket +:+ "/" +:+ key in
  (forall dataset raster_data nodata,
      rasterio_open path = Ok dataset ->
      read_band dataset 1 = Ok raster_data ->
      nodatavals dataset !! 0%nat = Some nodata ->
      exists b,
        all_cells_dry self st = (Ok (Some b), st) /\
        (b = true <->
         Forall (Forall (equals_nodata nodata)) raster_data) /\
        (b = false <->
         Exists (Exists (fun px => ~ equals_nodata nodata px))
                raster_data)) /\
  (forall e,
      rasterio_open path = Raise e ->
      all_cells_dry self st = (Ok None, reported e st)) /\
  (forall dataset e,
      rasterio_open path = Ok dataset ->
      read_band dataset 1 = Raise e ->
      all_cells_dry self st = (Ok None, reported e st)).
Proof.
  intros Ho Hu Hs path.
  assert (E : all_cells_dry self st =
              try_except
                (b <- all_cells_dry_try bucket key ;; ret (Some b))
                (fun e => print ("An error occurred: " +:+ exn_str e) ;;;
                          ret None) st).
  { unfold all_cells_dry.
    rewrite (bind_ok _ _ _ _ _ (getattr_ok _ _ _ _ _ _ Ho Hu)).
    unfold call at 1. unfold bind at 1. rewrite Hs. reflexivity. }
  rewrite E. clear E. unfold all_cells_dry_try. fold path.
  split; [|split].
  - intros dataset raster_data nodata Hd Hr Hn.
    exists (np_all (np_eq raster_data nodata)). split; [|split].
    + unfold try_except, bind, call, tuple_index.
      rewrite Hd, Hr, Hn. reflexivity.
    + apply np_all_eq_true.
    + apply np_all_eq_false.
  - intros e He. unfold try_except, bind, call. rewrite He. reflexivity.
  - intros dataset e Hd He. unfold try_except, bind, call.
    rewrite Hd, He. reflexivity.
Qed.

(** *** The thumbnail *)

Lemma stateless_ret {A} (a : A) : stateless (ret a).
Proof. intros st. reflexivity. Qed.

Lemma stateless_raise {A} e : stateless (raise (A := A) e).
Proof. intros st. reflexivity. Qed.

Lemma stateless_call {A} (r : Result A) : stateless (call r).
Proof. intros st. reflexivity. Qed.

Lemma stateless_bind {A B} (m : M State A) (k : A -> M State B) :
  stateless m -> (forall a, stateless (k a)) -> stateless (bind m k).
Proof.
  intros Hm Hk st. unfold bind. specialize (Hm st).
  destruct (m st) as [[a|e] st1]; simpl in Hm; subst st1.
  - apply Hk.
  - reflexivity.
Qed.

Lemma stateless_index {A} (xs : list A) i : stateless (index xs i).
Proof. intros st. apply index_pure. Qed.

Lemma stateless_floordiv a b : stateless (floordiv a b).
Proof.
  unfold floordiv. destruct (decide (b = 0));
    [apply stateless_raise | apply stateless_ret].
Qed.

Lemma stateless_truediv a b : stateless (truediv a b).
Proof.
  unfold truediv. destruct (decide (b = 0));
    [apply stateless_raise | apply stateless_ret].
Qed.

Lemma stateless_np_empty n h w d : stateless (np_empty n h w d).
Proof.
  unfold np_empty. destruct (decide (h < 0 \/ w < 0));
    [apply stateless_raise | apply stateless_ret].
Qed.

Lemma stateless_reproject_loop dataset data tr range resampled :
  stateless (reproject_loop dataset data tr range resampled).
Proof.
  revert resampled. induction range as [|i range IH]; intros resampled.
  - apply stateless_ret.
  - cbn [reproject_loop].
    apply stateless_bind; [apply stateless_index|]. intros source.
    apply stateless_bind; [apply stateless_index|]. intros destination.
    apply stateless_bind; [apply stateless_call|]. intros r. apply IH.
Qed.

Lemma stateless_resample dataset factor :
  stateless (resample dataset factor).
Proof.
  unfold resample.
  apply stateless_bind; [apply stateless_call|]. intros data.
  apply stateless_bind; [apply stateless_floordiv|]. intros nw.
  apply stateless_bind; [apply stateless_floordiv|]. intros nh.
  apply stateless_bind; [apply stateless_truediv|]. intros sx.
  apply stateless_bind; [apply stateless_truediv|]. intros sy.
  apply stateless_bind; [apply stateless_np_empty|]. intros resampled.
  apply stateless_reproject_loop.
Qed.

(** The loop reprojects into the bands of [resampled]; it adds and
    removes none. *)
Lemma reproject_loop_length dataset data tr range resampled st r st' :
  reproject_loop dataset data tr range resampled st = (Ok r, st') ->
  length r = length resampled.
Proof.
  revert resampled st. induction range as [|i range IH];
    intros resampled st H.
  - apply ret_inv in H as (-> & _). reflexivity.
  - cbn [reproject_loop] in H.
    bind_inv H. bind_inv H. bind_inv H.
    apply IH in H. rewrite H. apply length_insert.
Qed.

Lemma resample_length dataset factor st r st' :
  resample dataset factor st = (Ok r, st') -> length r = count dataset.
Proof.
  unfold resample. intros H.
  bind_inv H. bind_inv H. bind_inv H. bind_inv H. bind_inv H. bind_inv H.
  apply reproject_loop_length in H. rewrite H.
  unfold np_empty in Ha4.
  destruct (decide (a1 < 0 \/ a0 < 0)); [discriminate Ha4|].
  apply ret_inv in Ha4 as (-> & _). apply length_replicate.
Qed.

Lemma np_squeeze0_raises (a : list band) st :
  length a <> 1%nat -> np_squeeze0 a st = (Raise SqueezeError, st).
Proof.
  destruct a as [|b [|b' a]]; simpl; intros H;
    [reflexivity | contradiction | reflexivity].
Qed.

Lemma create_thumbnail_eq self thumbnail_path factor st :
  create_thumbnail self thumbnail_path factor st =
    match create_thumbnail_try self thumbnail_path factor st with
    | (Ok tt, st') => (Ok tt, st')
    | (Raise e, st') => (Ok tt, reported e st')
    end.
Proof.
  unfold create_thumbnail, try_except.
  destruct (create_thumbnail_try self thumbnail_path factor st)
    as [[[]|e] st']; reflexivity.
Qed.

Lemma create_thumbnail_returns self thumbnail_path factor st :
  create_thumbnail self thumbnail_path factor st
    = (Ok tt, (create_thumbnail self thumbnail_path factor st).2).
Proof.
  rewrite create_thumbnail_eq.
  destruct (create_thumbnail_try self thumbnail_path factor st)
    as [[[]|e] st']; reflexivity.
Qed.

Lemma create_thumbnail_try_multiband
    self thumbnail_path factor st o u dataset :
  heap st !! self = Some o ->
  uri o = Some u ->
  rasterio_open (str_replace "s3://" "/vsis3/" u) = Ok dataset ->
  count dataset <> 1%nat ->
  exists e,
    create_thumbnail_try self thumbnail_path factor st = (Raise e, st) /\
    (forall resampled,
        resample dataset factor st = (Ok resampled, st) ->
        length resampled = count dataset /\ e = SqueezeError).
Proof.
  intros Ho Hu Hd Hc. unfold create_thumbnail_try.
  rewrite (bind_ok _ _ _ _ _ (getattr_ok _ _ _ _ _ _ Ho Hu)).
  unfold call at 1. unfold bind at 1. rewrite Hd.
  pose proof (stateless_resample dataset factor st) as Hst.
  destruct (resample dataset factor st) as [[resampled|e] st1] eqn:E;
    simpl in Hst; subst st1.
  - pose proof (resample_length _ _ _ _ _ E) as Hlen.
    exists SqueezeError. split.
    + rewrite (bind_ok _ _ _ _ _ E).
      apply bind_raise. apply np_squeeze0_raises. congruence.
    + intros r Hr. injection Hr as <-. auto.
  - exists e. split.
    + apply bind_raise. exact E.
    + intros r Hr. discriminate Hr.
Qed.

(** C10: when the raster the instance points at has a band count other
    than 1, [create_thumbnail] raises inside its [try] block before
    [plt.imsave] runs (at [np.squeeze], if resampling got that far), the
    error is printed, nothing is returned and no file is written; so a
    call that changes the files was on a single-band raster. *)
Theorem create_thumbnail_needs_single_band
    self thumbnail_path factor st o u dataset :
  heap st !! self = Some o ->
  uri o = Some u ->
  rasterio_open (str_replace "s3://" "/vsis3/" u) = Ok dataset ->
  (count dataset <> 1%nat ->
   exists e,
     create_thumbnail_try self thumbnail_path factor st = (Raise e, st) /\
     create_thumbnail self thumbnail_path factor st
       = (Ok tt, reported e st) /\
     files (reported e st) = files st /\
     (forall resampled,
         resample dataset factor st = (Ok resampled, st) ->
         length resampled = count dataset /\
         np_squeeze0 resampled st = (Raise SqueezeError, st) /\
         e = SqueezeError)) /\
  (files (create_thumbnail self thumbnail_path factor st).2 <> files st ->
   count dataset = 1%nat).
Proof.
  intros Ho Hu Hd.
  assert (Hmulti :
    count dataset <> 1%nat ->
    exists e,
      create_thumbnail_try self thumbnail_path factor st = (Raise e, st) /\
      create_thumbnail self thumbnail_path factor st
        = (Ok tt, reported e st) /\
      files (reported e st) = files st /\
      (forall resampled,
          resample dataset factor st = (Ok resampled, st) ->
          length resampled = count dataset /\
          np_squeeze0 resampled st = (Raise SqueezeError, st) /\
          e = SqueezeError)).
  { intros Hc.
    destruct (create_thumbnail_try_multiband
                self thumbnail_path factor st o u dataset Ho Hu Hd Hc)
      as (e & Htry & Hsq).
    exists e. split; [exact Htry|]. split; [|split].
    - rewrite create_thumbnail_eq, Htry. reflexivity.
    - reflexivity.
    - intros r Hr. destruct (Hsq r Hr) as [Hlen ->].
      split; [exact Hlen|]. split; [|reflexivity].
      apply np_squeeze0_raises. congruence. }
  split; [exact Hmulti|].
  intros Hfiles. destruct (decide (count dataset = 1%nat)) as [E|N];
    [exact E|].
  destruct (Hmulti N) as (e & _ & Hrun & Hsame & _).
  rewrite Hrun in Hfiles. contradiction.
Qed.

(** *** The catalog item *)

Lemma to_pystac_item_ok self item_id thumbnail_path new_thumbnail st
    o geom dt bb :
  heap st !! self = Some o ->
  _footprint_4326 o = Some geom ->
  temporal o = Some dt ->
  bbox_4326 self st = (Ok bb, st) ->
  exists proj_bbox proj_wkt2,
    _bbox o = Some proj_bbox /\ projection o = Some proj_wkt2 /\
    let st1 := mkState (heap st) (S (S (ticks st))) (console st)
                       (files st) in
    let item :=
      add_asset "cog" cog_asset
        (mkItem item_id geom bb dt extension_schemas
           (item_properties proj_bbox proj_wkt2 (clock (ticks st))
              (clock (S (ticks st)))) ∅) in
    to_pystac_item self item_id thumbnail_path new_thumbnail st =
      if new_thumbnail
      then (Ok (add_asset "thumbnail" thumbnail_asset item),
            (create_thumbnail self thumbnail_path 4 st1).2)
      else (Ok item, st1).
Proof.
  intros Ho Hf Ht Hb. pose proof Hb as Hb'.
  apply bbox_4326_inv in Hb'
    as (_ & o' & proj & tr & b & x0 & y0 & x1 & y1 & Ho' & Hp & _ & Hbb
        & _).
  assert (o' = o) by congruence. subst o'.
  exists b, proj. split; [exact Hbb|]. split; [exact Hp|].
  intros st1 item. unfold to_pystac_item.
  rewrite (bind_ok _ _ _ _ _ (getattr_ok _ _ _ _ _ _ Ho Hf)).
  rewrite (bind_ok _ _ _ _ _ Hb).
  rewrite (bind_ok _ _ _ _ _ (getattr_ok _ _ _ _ _ _ Ho Ht)).
  unfold bbox.
  rewrite (bind_ok _ _ _ _ _ (getattr_ok _ _ _ _ _ _ Ho Hbb)).
  rewrite (bind_ok _ _ _ _ _ (getattr_ok _ _ _ _ _ _ Ho Hp)).
  unfold now. unfold bind at 1. unfold bind at 1.
  cbn [heap ticks console files]. fold st1.
  destruct new_thumbnail; [|reflexivity].
  erewrite bind_ok; [| apply create_thumbnail_returns]. reflexivity.
Qed.

Lemma to_pystac_item_inv self item_id thumbnail_path new_thumbnail st
    item st' :
  to_pystac_item self item_id thumbnail_path new_thumbnail st
    = (Ok item, st') ->
  exists o geom dt bb,
    heap st !! self = Some o /\
    _footprint_4326 o = Some geom /\
    temporal o = Some dt /\
    bbox_4326 self st = (Ok bb, st).
Proof.
  unfold to_pystac_item. intros H.
  bind_inv H. apply getattr_inv in Ha as (-> & o & Ho & Hf).
  bind_inv H. pose proof Ha as Hb.
  apply bbox_4326_inv in Hb as (-> & _).
  bind_inv H. apply getattr_inv in Ha0 as (-> & o' & Ho' & Ht).
  assert (o' = o) by congruence. subst o'.
  exists o, a, a1, a0. auto.
Qed.

(** C4: a call with [new_thumbnail=False] that returns gives an item
    whose only asset is ["cog"], with href ["grid.tif"] and role
    [data]; one with [new_thumbnail=True] gives that item plus the
    asset ["thumbnail"] (href ["thumbnail.png"], role [thumbnail]), two
    assets in all, after running [create_thumbnail] on the given path;
    and the call returns whenever the footprint, the capture time and
    the geographic bounding box of the instance can be read. *)
Theorem to_pystac_item_assets self item_id thumbnail_path st :
  (forall item st',
      to_pystac_item self item_id thumbnail_path false st
        = (Ok item, st') ->
      assets item = {["cog" := cog_asset]} /\
      size (assets item) = 1%nat /\
      href cog_asset = "grid.tif" /\ roles cog_asset = ["data"]) /\
  (forall item st',
      to_pystac_item self item_id thumbnail_path true st
        = (Ok item, st') ->
      assets item
        = <["thumbnail" := thumbnail_asset]> {["cog" := cog_asset]} /\
      size (assets item) = 2%nat /\
      href thumbnail_asset = "thumbnail.png" /\
      roles thumbnail_asset = ["thumbnail"] /\
      exists item0 st1,
        to_pystac_item self item_id thumbnail_path false st
          = (Ok item0, st1) /\
        item = add_asset "thumbnail" thumbnail_asset item0 /\
        create_thumbnail self thumbnail_path 4 st1 = (Ok tt, st')) /\
  (forall o geom dt bb new_thumbnail,
      heap st !! self = Some o ->
      _footprint_4326 o = Some geom ->
      temporal o = Some dt ->
      bbox_4326 self st = (Ok bb, st) ->
      exists item st',
        to_pystac_item self item_id thumbnail_path new_thumbnail st
          = (Ok item, st')).
Proof.
  split; [|split].
  - intros item st' H. pose proof H as H'.
    apply to_pystac_item_inv in H' as (o & geom & dt & bb & Ho & Hf & Ht & Hb).
    destruct (to_pystac_item_ok self item_id thumbnail_path false st
                o geom dt bb Ho Hf Ht Hb) as (pb & pw & _ & _ & E).
    cbv zeta in E. rewrite E in H. injection H as <- <-.
    cbn [assets add_asset]. rewrite insert_empty.
    split; [reflexivity|]. split; [apply map_size_singleton|].
    split; reflexivity.
  - intros item st' H. pose proof H as H'.
    apply to_pystac_item_inv in H' as (o & geom & dt & bb & Ho & Hf & Ht & Hb).
    destruct (to_pystac_item_ok self item_id thumbnail_path true st
                o geom dt bb Ho Hf Ht Hb) as (pb & pw & Hpb & Hpw & E).
    destruct (to_pystac_item_ok self item_id thumbnail_path false st
                o geom dt bb Ho Hf Ht Hb) as (pb' & pw' & Hpb' & Hpw' & E').
    assert (pb' = pb) by congruence. assert (pw' = pw) by congruence.
    subst pb' pw'.
    cbv zeta in E, E'. rewrite E in H. injection H as <- <-.
    cbn [assets add_asset]. rewrite insert_empty.
    split; [reflexivity|]. split.
    { rewrite map_size_insert_None; [rewrite map_size_singleton; reflexivity|].
      apply lookup_singleton_ne. discriminate. }
    split; [reflexivity|]. split; [reflexivity|].
    eexists _, _. split; [exact E'|]. split; [reflexivity|].
    apply create_thumbnail_returns.
  - intros o geom dt bb new_thumbnail Ho Hf Ht Hb.
    destruct (to_pystac_item_ok self item_id thumbnail_path new_thumbnail
                st o geom dt bb Ho Hf Ht Hb) as (pb & pw & _ & _ & E).
    cbv zeta in E. rewrite E. destruct new_thumbnail; eauto.
Qed.

(** C8: the item [to_pystac_item] returns has as geometry the footprint
    stored on the instance, as bounding box what [bbox_4326] computes in
    the state of the call, as datetime the stored capture time, and as
    extensions the projection, storage and processing schemas, those
    three. *)
Theorem to_pystac_item_fields
    self item_id thumbnail_path new_thumbnail st item st' :
  to_pystac_item self item_id thumbnail_path new_thumbnail st
    = (Ok item, st') ->
  exists o,
    heap st !! self = Some o /\
    _footprint_4326 o = Some (item_geometry item) /\
    bbox_4326 self st = (Ok (item_bbox item), st) /\
    temporal o = Some (item_datetime item) /\
    stac_extensions item =
      ["https://stac-extensions.github.io/projection/v1.0.0/schema.json";
       "https://stac-extensions.github.io/storage/v1.0.0/schema.json";
       "https://stac-extensions.github.io/processing/v1.1.0/schema.json"]
    /\ length (stac_extensions item) = 3%nat.
Proof.
  intros H. pose proof H as H'.
  apply to_pystac_item_inv in H' as (o & geom & dt & bb & Ho & Hf & Ht & Hb).
  destruct (to_pystac_item_ok self item_id thumbnail_path new_thumbnail st
              o geom dt bb Ho Hf Ht Hb) as (pb & pw & _ & _ & E).
  cbv zeta in E. rewrite E in H. exists o.
  destruct new_thumbnail; injection H as <- <-; cbn; auto 10.
Qed.

End Proofs.

(** * Further behaviour of the module *)

Section Behaviour.

Context `{L : Libraries}.

Implicit Types (self : loc) (st : State) (o : COG).

(** *** Statements that do not touch the state *)

Lemma bind_stateless_cases {A B} (m : M State A) (k : A -> M State B) st :
  stateless m ->
  (exists e, m st = (Raise e, st) /\ bind m k st = (Raise e, st)) \/
  (exists a, m st = (Ok a, st) /\ bind m k st = k a st).
Proof.
  intros Hm. specialize (Hm st). unfold bind.
  destruct (m st) as [[a|e] st1]; simpl in Hm; subst st1.
  - right. exists a. split; reflexivity.
  - left. exists e. split; reflexivity.
Qed.

Lemma stateless_getattr {A} self name (f : COG -> option A) :
  stateless (getattr self name f).
Proof. intros st. apply getattr_pure. Qed.

Lemma stateless_bbox_4326 self : stateless (bbox_4326 self).
Proof. intros st. apply bbox_4326_pure. Qed.

Lemma stateless_create_footprint self : stateless (_create_footprint self).
Proof.
  unfold _create_footprint.
  repeat (apply stateless_bind; [apply stateless_bbox_4326|]; intros ?;
          apply stateless_bind; [apply stateless_index|]; intros ?).
  apply stateless_ret.
Qed.

(** *** Outcomes of [bbox_4326] *)

Lemma bbox_4326_cases self st o proj (b : list float) :
  heap st !! self = Some o ->
  projection o = Some proj ->
  _bbox o = Some b ->
  bbox_4326 self st =
    match from_crs proj "epsg:4326" true with
    | Raise e => (Raise e, st)
    | Ok tr =>
        match b with
        | x0 :: y0 :: x1 :: y1 :: _ =>
            (Ok [(tr x0 y0).1; (tr x0 y0).2; (tr x1 y1).1; (tr x1 y1).2], st)
        | _ => (Raise IndexError, st)
        end
    end.
Proof.
  intros Ho Hp Hb.
  destruct (from_crs proj "epsg:4326" true) as [tr|e] eqn:Ht.
  - destruct b as [|x0 [|y0 [|x1 [|y1 b]]]].
    5: { eapply bbox_4326_ok; eauto; reflexivity. }
    all: unfold bbox_4326;
      rewrite (bind_ok _ _ _ _ _ (getattr_ok _ _ _ _ _ _ Ho Hp));
      unfold call at 1; rewrite Ht; unfold bind at 1;
      repeat (rewrite (bind_ok _ _ _ _ _ (getattr_ok _ _ _ _ _ _ Ho Hb));
              first [ erewrite bind_ok; [| apply index_ok; reflexivity]
                    | apply bind_raise; reflexivity ]).
  - unfold bbox_4326.
    rewrite (bind_ok _ _ _ _ _ (getattr_ok _ _ _ _ _ _ Ho Hp)).
    apply bind_raise. unfold call. rewrite Ht. reflexivity.
Qed.

(** X1: on an instance with a projection and a native bounding box,
    [bbox_4326] raises what pyproj raises on the projection, before it
    looks at the bounding box; with a transformer it raises [IndexError]
    when the bounding box has fewer than four entries, and otherwise
    transforms the first four, whatever follows them. *)
Theorem bbox_4326_outcome self st o proj (b : list float) :
  heap st !! self = Some o ->
  projection o = Some proj ->
  _bbox o = Some b ->
  bbox_4326 self st =
    match from_crs proj "epsg:4326" true with
    | Raise e => (Raise e, st)
    | Ok tr =>
        match b with
        | x0 :: y0 :: x1 :: y1 :: _ =>
            (Ok [(tr x0 y0).1; (tr x0 y0).2; (tr x1 y1).1; (tr x1 y1).2], st)
        | _ => (Raise IndexError, st)
        end
    end.
Proof. apply bbox_4326_cases. Qed.

(** *** Outcomes of the constructor *)

Lemma create_footprint_raise self st e :
  bbox_4326 self st = (Raise e, st) ->
  _create_footprint self st = (Raise e, st).
Proof. intros H. unfold _create_footprint. apply bind_raise. exact H. Qed.

Lemma COG_init_steps self st o uri bbox temporal resolution projection cmap :
  heap st !! self = Some o ->
  COG_init self uri bbox temporal resolution projection cmap st =
    (p <- _create_footprint self ;;
     setattr self (set_footprint_4326 (mapping p)) ;;;
     setattr self (set_cmap cmap))
      (initialising self o uri bbox resolution projection st).
Proof.
  intros Ho. unfold COG_init.
  erewrite bind_ok; [| apply setattr_ok; eassumption].
  erewrite bind_ok; [| apply setattr_ok; simpl; apply lookup_insert_eq].
  unfold now at 1. unfold bind at 1. cbn [heap ticks console files].
  erewrite bind_ok; [| apply setattr_ok; simpl; apply lookup_insert_eq].
  erewrite bind_ok; [| apply setattr_ok; simpl; apply lookup_insert_eq].
  erewrite bind_ok; [| apply setattr_ok; simpl; apply lookup_insert_eq].
  cbn [heap ticks console files]. rewrite !insert_insert_eq.
  reflexivity.
Qed.

Lemma initialising_modifies_only self o uri bbox resolution projection st :
  modifies_only self st
    (initialising self o uri bbox resolution projection st).
Proof.
  unfold modifies_only, initialising. cbn [heap console files].
  split; [reflexivity|]. split; [reflexivity|].
  intros l Hl. apply lookup_insert_ne. congruence.
Qed.

Lemma modifies_only_new_object self st st1 st' :
  new_object st = (Ok self, st1) ->
  modifies_only self st1 st' -> modifies_only self st st'.
Proof.
  unfold new_object. intros H (Hc & Hf & Hh). injection H as <- <-.
  cbn [heap console files] in *. split; [exact Hc|]. split; [exact Hf|].
  intros l Hl. rewrite (Hh l Hl). apply lookup_insert_ne. congruence.
Qed.

Lemma COG_new_raise st u b temporal res proj cm e :
  (forall self st1 o, heap st1 !! self = Some o ->
     projection o = Some proj -> _bbox o = Some b ->
     bbox_4326 self st1 = (Raise e, st1)) ->
  exists st',
    COG_new u b temporal res proj cm st = (Raise e, st')
    /\ modifies_only (fresh (dom (heap st))) st st'.
Proof.
  intros Hraise. unfold COG_new.
  destruct (new_object st) as [r st1] eqn:Hnew. pose proof Hnew as Hnew'.
  unfold new_object in Hnew'. injection Hnew' as <- <-.
  set (self := fresh (dom (heap st))) in *.
  set (st1 := mkState (<[self := blank]> (heap st)) (ticks st) (console st)
                      (files st)) in *.
  assert (Hb : heap st1 !! self = Some blank) by apply lookup_insert_eq.
  exists (initialising self blank u b res proj st1).
  split.
  - rewrite (bind_ok _ _ _ _ _ Hnew). apply bind_raise.
    rewrite (COG_init_steps _ _ _ _ _ _ _ _ _ Hb). apply bind_raise.
    apply create_footprint_raise. eapply Hraise.
    + cbn [initialising heap]. apply lookup_insert_eq.
    + reflexivity.
    + reflexivity.
  - eapply modifies_only_new_object; [exact Hnew|].
    apply initialising_modifies_only.
Qed.

(** X2: when pyproj rejects the projection, the constructor raises what
    pyproj raised; nothing has been printed or written and no other
    instance has changed. *)
Theorem COG_new_invalid_projection
    st u b temporal res proj cm e :
  from_crs proj "epsg:4326" true = Raise e ->
  exists st',
    COG_new u b temporal res proj cm st = (Raise e, st')
    /\ modifies_only (fresh (dom (heap st))) st st'.
Proof.
  intros He. apply COG_new_raise. intros self st1 o Ho Hp Hb.
  rewrite (bbox_4326_cases _ _ _ _ _ Ho Hp Hb), He. reflexivity.
Qed.

(** X3: with a projection pyproj accepts and a bounding box of fewer than
    four entries, the constructor raises [IndexError]. *)
Theorem COG_new_short_bbox
    st u (b : list float) temporal res proj cm tr :
  from_crs proj "epsg:4326" true = Ok tr ->
  (length b < 4)%nat ->
  exists st',
    COG_new u b temporal res proj cm st
      = (Raise IndexError, st')
    /\ modifies_only (fresh (dom (heap st))) st st'.
Proof.
  intros Ht Hlen. apply COG_new_raise. intros self st1 o Ho Hp Hb.
  rewrite (bbox_4326_cases _ _ _ _ _ Ho Hp Hb), Ht.
  destruct b as [|x0 [|y0 [|x1 [|y1 b]]]]; try reflexivity.
  simpl in Hlen. lia.
Qed.

(** X4: an instance the constructor returns reads back the URI, the
    bounding box, the resolution, the projection and the colour map it
    was given, and its [bbox] property is the bounding box passed in. *)
Theorem COG_new_stores_arguments
    st u b temporal res proj cm self st' :
  COG_new u b temporal res proj cm st = (Ok self, st') ->
  exists o,
    heap st' !! self = Some o /\
    uri o = Some u /\
    _bbox o = Some b /\
    resolution o = Some res /\
    projection o = Some proj /\
    cmap o = Some cm /\
    bbox self st' = (Ok b, st').
Proof.
  intros H. pose proof H as H'.
  apply COG_new_inv in H' as (tr & x0 & y0 & x1 & y1 & Ht & H0 & H1 & H2 & H3).
  rewrite (COG_new_ok _ _ _ _ _ _ _ _ _ _ _ _ Ht H0 H1 H2 H3) in H.
  injection H as <- <-. eexists. split.
  - cbn [heap]. apply lookup_insert_eq.
  - repeat split; try reflexivity. unfold bbox.
    eapply getattr_ok; [cbn [heap]; apply lookup_insert_eq | reflexivity].
Qed.

(** X5: the instance the constructor returns is a new one; the
    constructor reads the clock once, prints nothing, writes no file and
    changes no instance that existed before. *)
Theorem COG_new_frame
    st u b temporal res proj cm self st' :
  COG_new u b temporal res proj cm st = (Ok self, st') ->
  heap st !! self = None /\
  modifies_only self st st' /\
  ticks st' = S (ticks st).
Proof.
  intros H. pose proof H as H'.
  apply COG_new_inv in H' as (tr & x0 & y0 & x1 & y1 & Ht & H0 & H1 & H2 & H3).
  rewrite (COG_new_ok _ _ _ _ _ _ _ _ _ _ _ _ Ht H0 H1 H2 H3) in H.
  injection H as <- <-. split; [|split].
  - apply not_elem_of_dom. apply is_fresh.
  - unfold modifies_only. cbn [heap console files].
    split; [reflexivity|]. split; [reflexivity|].
    intros l Hl. apply lookup_insert_ne. congruence.
  - reflexivity.
Qed.

(** *** Outcomes of the factory *)

Lemma COG_new_raise_frame st u b t res proj cm e st' :
  COG_new u b t res proj cm st = (Raise e, st') ->
  modifies_only (fresh (dom (heap st))) st st'.
Proof.
  unfold COG_new. intros H.
  destruct (new_object st) as [r st1] eqn:Hnew. pose proof Hnew as Hnew'.
  unfold new_object in Hnew'. injection Hnew' as <- <-.
  set (self := fresh (dom (heap st))) in *.
  set (st1 := mkState (<[self := blank]> (heap st)) (ticks st) (console st)
                      (files st)) in *.
  assert (Hb : heap st1 !! self = Some blank) by apply lookup_insert_eq.
  rewrite (bind_ok _ _ _ _ _ Hnew) in H.
  eapply modifies_only_new_object; [exact Hnew|].
  set (st2 := initialising self blank u b res proj st1) in *.
  assert (Hinit : COG_init self u b t res proj cm st1 = (Raise e, st')).
  { unfold bind in H.
    destruct (COG_init self u b t res proj cm st1) as [[[]|e'] s];
      [discriminate H | injection H as -> ->; reflexivity]. }
  rewrite (COG_init_steps _ _ _ _ _ _ _ _ _ Hb) in Hinit. fold st2 in Hinit.
  destruct (bind_stateless_cases (_create_footprint self)
              (fun p => setattr self (set_footprint_4326 (mapping p)) ;;;
                        setattr self (set_cmap cm)) st2
              (stateless_create_footprint self))
    as [(e' & _ & E) | (p & _ & E)]; rewrite E in Hinit.
  - injection Hinit as _ <-. apply initialising_modifies_only.
  - exfalso.
    erewrite bind_ok in Hinit;
      [| apply setattr_ok; cbn [st2 initialising heap];
         apply lookup_insert_eq].
    erewrite setattr_ok in Hinit; [discriminate Hinit|].
    cbn [heap]. apply lookup_insert_eq.
Qed.

Lemma from_s3_try_ok bucket_name file_key cm st dataset c tr :
  rasterio_open ("/vsis3/" +:+ bucket_name +:+ "/" +:+ file_key)
    = Ok dataset ->
  crs dataset = Some c ->
  from_crs (to_string c) "epsg:4326" true = Ok tr ->
  (tags dataset "TIFFTAG_DATETIME" = ∅ ->
   exists d, get_object_datetime bucket_name file_key = Ok d) ->
  exists self st',
    from_s3_try bucket_name file_key cm st = (Ok self, st').
Proof.
  intros Hopen Hcrs Htr Hdate. unfold from_s3_try.
  unfold call at 1. unfold bind at 1. rewrite Hopen.
  unfold crs_to_string. rewrite Hcrs. unfold ret at 1. unfold bind at 1.
  assert (Hstamp : exists v,
            (if decide (tags dataset "TIFFTAG_DATETIME" = ∅)
             then d <- call (get_object_datetime bucket_name file_key) ;;
                  ret (TDatetime d)
             else ret (TTags (tags dataset "TIFFTAG_DATETIME"))) st
            = (Ok v, st)).
  { destruct (decide (tags dataset "TIFFTAG_DATETIME" = ∅)) as [E|E].
    - destruct (Hdate E) as (d & Hd). exists (TDatetime d).
      unfold call, bind. rewrite Hd. reflexivity.
    - eexists. reflexivity. }
  destruct Hstamp as (v & Hv). rewrite (bind_ok _ _ _ _ _ Hv).
  unfold now at 1. unfold bind at 1.
  erewrite COG_new_ok; [eauto | exact Htr | reflexivity..].
Qed.

Lemma from_s3_try_raise_frame bucket_name file_key cm st e st1 :
  from_s3_try bucket_name file_key cm st = (Raise e, st1) ->
  console st1 = console st /\ files st1 = files st /\
  forall l o, heap st !! l = Some o -> heap st1 !! l = Some o.
Proof.
  unfold from_s3_try. intros H.
  unfold call at 1 in H. unfold bind at 1 in H.
  destruct (rasterio_open _) as [dataset|e0];
    [|injection H as _ <-; auto].
  unfold crs_to_string in H. unfold bind at 1 in H.
  destruct (crs dataset) as [c|];
    [|injection H as _ <-; auto].
  unfold ret at 1 in H. unfold bind at 1 in H.
  destruct (decide (tags dataset "TIFFTAG_DATETIME" = ∅)) as [E|E].
  - unfold call, bind at 1 in H.
    destruct (get_object_datetime bucket_name file_key) as [d|e0];
      [|injection H as _ <-; auto].
    unfold ret at 1 in H. unfold now at 1 in H. unfold bind at 1 in H.
    apply COG_new_raise_frame in H as (Hc & Hf & Hh).
    cbn [heap console files] in *. split; [exact Hc|]. split; [exact Hf|].
    intros l o Hl. rewrite Hh; [exact Hl|].
    intros ->. pose proof (is_fresh (dom (heap st))) as Hfresh.
    apply not_elem_of_dom in Hfresh. congruence.
  - unfold ret at 1 in H. unfold now at 1 in H. unfold bind at 1 in H.
    apply COG_new_raise_frame in H as (Hc & Hf & Hh).
    cbn [heap console files] in *. split; [exact Hc|]. split; [exact Hf|].
    intros l o Hl. rewrite Hh; [exact Hl|].
    intros ->. pose proof (is_fresh (dom (heap st))) as Hfresh.
    apply not_elem_of_dom in Hfresh. congruence.
Qed.

(** X6: the instance [from_s3] returns has the URI
    [s3://bucket/key], the bounds of the raster as [left, bottom, right,
    top], its resolution, the string of its coordinate reference system
    and the colour map passed in. *)
Theorem from_s3_descriptor bucket_name file_key cm st self st' :
  from_s3 bucket_name file_key cm st = (Ok (Some self), st') ->
  exists dataset c o,
    rasterio_open ("/vsis3/" +:+ bucket_name +:+ "/" +:+ file_key)
      = Ok dataset /\
    crs dataset = Some c /\
    heap st' !! self = Some o /\
    uri o = Some ("s3://" +:+ bucket_name +:+ "/" +:+ file_key) /\
    _bbox o = Some [left (bounds dataset); bottom (bounds dataset);
                    right (bounds dataset); top (bounds dataset)] /\
    resolution o = Some (res dataset) /\
    projection o = Some (to_string c) /\
    cmap o = Some cm.
Proof.
  intros H.
  destruct (from_s3_try bucket_name file_key cm st) as [[s|e] st1] eqn:E.
  - rewrite (from_s3_on_ok _ _ _ _ _ _ E) in H. injection H as -> ->.
    apply from_s3_try_inv in E
      as (dataset & c & tr & Hopen & Hcrs & _ & _ & _ & ->).
    exists dataset, c. eexists. split; [exact Hopen|]. split; [exact Hcrs|].
    split; [cbn [heap]; apply lookup_insert_eq|].
    repeat split; reflexivity.
  - rewrite (from_s3_on_raise _ _ _ _ _ _ E) in H. discriminate H.
Qed.

(** X7: [from_s3] returns an instance exactly when the raster opens, has
    a coordinate reference system that pyproj accepts and, if it carries
    no TIFFTAG_DATETIME tag, the last-modified time of the object can be
    fetched. *)
Theorem from_s3_succeeds_iff bucket_name file_key cm st :
  (exists self st',
      from_s3 bucket_name file_key cm st = (Ok (Some self), st'))
  <->
  (exists dataset c tr,
      rasterio_open ("/vsis3/" +:+ bucket_name +:+ "/" +:+ file_key)
        = Ok dataset /\
      crs dataset = Some c /\
      from_crs (to_string c) "epsg:4326" true = Ok tr /\
      (tags dataset "TIFFTAG_DATETIME" = ∅ ->
       exists d, get_object_datetime bucket_name file_key = Ok d)).
Proof.
  split.
  - intros (self & st' & H).
    destruct (from_s3_try bucket_name file_key cm st) as [[s|e] st1] eqn:E.
    + apply from_s3_try_inv in E
        as (dataset & c & tr & Hopen & Hcrs & Htr & Hdate & _).
      exists dataset, c, tr. auto.
    + rewrite (from_s3_on_raise _ _ _ _ _ _ E) in H. discriminate H.
  - intros (dataset & c & tr & Hopen & Hcrs & Htr & Hdate).
    destruct (from_s3_try_ok bucket_name file_key cm st dataset c tr
                Hopen Hcrs Htr Hdate) as (self & st' & E).
    exists self, st'. apply from_s3_on_ok. exact E.
Qed.

(** X8: for a raster without TIFFTAG_DATETIME tag, a failure to fetch
    the last-modified time of the object makes [from_s3] print that
    error and return [None], although the time would not have been
    stored. *)
Theorem from_s3_last_modified_failure
    bucket_name file_key cm st dataset c e :
  rasterio_open ("/vsis3/" +:+ bucket_name +:+ "/" +:+ file_key)
    = Ok dataset ->
  crs dataset = Some c ->
  tags dataset "TIFFTAG_DATETIME" = ∅ ->
  get_object_datetime bucket_name file_key = Raise e ->
  from_s3 bucket_name file_key cm st = (Ok None, reported e st).
Proof.
  intros Hopen Hcrs Htags Hd. apply from_s3_on_raise.
  apply (proj2 (proj2 (from_s3_try_failures bucket_name file_key cm st))
               dataset c e Hopen Hcrs Htags Hd).
Qed.

(** X9: [from_s3] writes no file and leaves every existing instance as it
    was.  When it returns an instance, that instance is new, nothing was
    printed and the clock was read twice; when it returns [None], one line
    was printed. *)
Theorem from_s3_frame bucket_name file_key cm st r st' :
  from_s3 bucket_name file_key cm st = (r, st') ->
  files st' = files st /\
  (forall l o, heap st !! l = Some o -> heap st' !! l = Some o) /\
  match r with
  | Ok (Some self) =>
      heap st !! self = None /\ console st' = console st /\
      ticks st' = S (S (ticks st))
  | Ok None =>
      exists e,
        console st' = console st ++ ["An error occurred: " +:+ exn_str e]
  | Raise _ => False
  end.
Proof.
  intros H.
  destruct (from_s3_try bucket_name file_key cm st) as [[s|e] st1] eqn:E.
  - rewrite (from_s3_on_ok _ _ _ _ _ _ E) in H. injection H as <- <-.
    apply from_s3_try_inv in E as (dataset & c & tr & _ & _ & _ & _ & -> & ->).
    pose proof (is_fresh (dom (heap st))) as Hfresh.
    apply not_elem_of_dom in Hfresh.
    cbn [heap ticks console files]. split; [reflexivity|]. split.
    + intros l o Hl. rewrite lookup_insert_ne; [exact Hl|]. congruence.
    + auto.
  - rewrite (from_s3_on_raise _ _ _ _ _ _ E) in H. injection H as <- <-.
    apply from_s3_try_raise_frame in E as (Hc & Hf & Hh).
    unfold reported. cbn [heap ticks console files].
    split; [exact Hf|]. split; [exact Hh|]. exists e. rewrite Hc. reflexivity.
Qed.

(** *** Outcomes of [all_cells_dry] *)

Lemma stateless_tuple_index {A} (t : list A) i : stateless (tuple_index t i).
Proof.
  unfold tuple_index. destruct (t !! i);
    [apply stateless_ret | apply stateless_raise].
Qed.

Lemma stateless_all_cells_dry_try bucket key :
  stateless (all_cells_dry_try bucket key).
Proof.
  unfold all_cells_dry_try.
  apply stateless_bind; [apply stateless_call|]. intros dataset.
  apply stateless_bind; [apply stateless_call|]. intros raster_data.
  apply stateless_bind; [apply stateless_tuple_index|]. intros nodata.
  apply stateless_ret.
Qed.

(** X10: when [split_s3_path] raises on the URI of the instance,
    [all_cells_dry] raises the same exception instead of returning
    [None], and prints nothing. *)
Theorem all_cells_dry_split_failure self st o u e :
  heap st !! self = Some o ->
  uri o = Some u ->
  split_s3_path u = Raise e ->
  all_cells_dry self st = (Raise e, st).
Proof.
  intros Ho Hu Hs. unfold all_cells_dry.
  rewrite (bind_ok _ _ _ _ _ (getattr_ok _ _ _ _ _ _ Ho Hu)).
  apply bind_raise. unfold call. rewrite Hs. reflexivity.
Qed.

(** X11: on a raster that declares no nodata value for its first band,
    [all_cells_dry] is [True] only if the band holds no pixel at all. *)
Theorem all_cells_dry_without_nodata
    self st o u bucket key dataset (raster_data : band) :
  heap st !! self = Some o ->
  uri o = Some u ->
  split_s3_path u = Ok (bucket, key) ->
  rasterio_open ("/vsis3/" +:+ bucket +:+ "/" +:+ key) = Ok dataset ->
  read_band dataset 1 = Ok raster_data ->
  nodatavals dataset !! 0%nat = Some None ->
  exists b,
    all_cells_dry self st = (Ok (Some b), st) /\
    (b = true <-> Forall (fun row => row = []) raster_data).
Proof.
  intros Ho Hu Hs Hd Hr Hn.
  exists (np_all (np_eq raster_data None)). split.
  - unfold all_cells_dry.
    rewrite (bind_ok _ _ _ _ _ (getattr_ok _ _ _ _ _ _ Ho Hu)).
    unfold call at 1. unfold bind at 1. rewrite Hs. cbn [fst snd].
    unfold try_except, all_cells_dry_try, bind, call, tuple_index.
    rewrite Hd, Hr, Hn. reflexivity.
  - rewrite np_all_eq_true. apply Forall_iff. intros row. split.
    + intros H. destruct row as [|px row]; [reflexivity|].
      inversion H as [|? ? (v & Hv & _) _]. discriminate Hv.
    + intros ->. constructor.
Qed.

(** X12: [all_cells_dry] changes nothing but the console: the state is
    untouched when it returns a boolean or raises, and has one more
    printed line when it returns [None]. *)
Theorem all_cells_dry_frame self st r st' :
  all_cells_dry self st = (r, st') ->
  match r with
  | Ok None => exists e, st' = reported e st
  | Ok (Some _) | Raise _ => st' = st
  end.
Proof.
  unfold all_cells_dry. intros H.
  destruct (bind_stateless_cases (getattr self "uri" uri)
              (fun u =>
                 bk <- call (split_s3_path u) ;;
                 try_except
                   (b <- all_cells_dry_try bk.1 bk.2 ;; ret (Some b))
                   (fun e => print ("An error occurred: " +:+ exn_str e) ;;;
                             ret None)) st
              (stateless_getattr _ _ _))
    as [(e & _ & E) | (u & _ & E)]; rewrite E in H; clear E.
  { injection H as <- <-. reflexivity. }
  unfold call at 1 in H. unfold bind at 1 in H.
  destruct (split_s3_path u) as [[bucket key]|e];
    [|injection H as <- <-; reflexivity].
  cbn [fst snd] in H. unfold try_except in H.
  destruct (bind_stateless_cases (all_cells_dry_try bucket key)
              (fun b => ret (Some b)) st
              (stateless_all_cells_dry_try bucket key))
    as [(e & _ & E) | (b & _ & E)]; rewrite E in H; clear E.
  - injection H as <- <-. exists e. reflexivity.
  - injection H as <- <-. reflexivity.
Qed.

(** *** Outcomes of [create_thumbnail] *)

Lemma stateless_np_squeeze0 (a : list band) : stateless (np_squeeze0 a).
Proof.
  destruct a as [|b [|b' a]];
    [apply stateless_raise | apply stateless_ret | apply stateless_raise].
Qed.

Lemma create_thumbnail_try_cases self thumbnail_path factor st :
  (exists e,
      create_thumbnail_try self thumbnail_path factor st = (Raise e, st)) \/
  (exists o cm image png,
      heap st !! self = Some o /\ cmap o = Some cm /\
      plt_imsave thumbnail_path image cm = Ok png /\
      create_thumbnail_try self thumbnail_path factor st
        = (Ok tt, saved thumbnail_path png st)).
Proof.
  unfold create_thumbnail_try.
  destruct (bind_stateless_cases (getattr self "uri" uri)
              (fun u =>
                 dataset <- call (rasterio_open
                                    (str_replace "s3://" "/vsis3/" u)) ;;
                 resampled <- resample dataset factor ;;
                 image <- np_squeeze0 resampled ;;
                 cm <- getattr self "cmap" cmap ;;
                 imsave thumbnail_path image cm) st
              (stateless_getattr _ _ _))
    as [(e & _ & E) | (u & _ & E)]; rewrite E; clear E; [eauto|].
  destruct (bind_stateless_cases
              (call (rasterio_open (str_replace "s3://" "/vsis3/" u)))
              (fun dataset =>
                 resampled <- resample dataset factor ;;
                 image <- np_squeeze0 resampled ;;
                 cm <- getattr self "cmap" cmap ;;
                 imsave thumbnail_path image cm) st
              (stateless_call _))
    as [(e & _ & E) | (dataset & _ & E)]; rewrite E; clear E; [eauto|].
  destruct (bind_stateless_cases (resample dataset factor)
              (fun resampled =>
                 image <- np_squeeze0 resampled ;;
                 cm <- getattr self "cmap" cmap ;;
                 imsave thumbnail_path image cm) st
              (stateless_resample _ _))
    as [(e & _ & E) | (resampled & _ & E)]; rewrite E; clear E; [eauto|].
  destruct (bind_stateless_cases (np_squeeze0 resampled)
              (fun image =>
                 cm <- getattr self "cmap" cmap ;;
                 imsave thumbnail_path image cm) st
              (stateless_np_squeeze0 _))
    as [(e & _ & E) | (image & _ & E)]; rewrite E; clear E; [eauto|].
  destruct (bind_stateless_cases (getattr self "cmap" cmap)
              (fun cm => imsave thumbnail_path image cm) st
              (stateless_getattr _ _ _))
    as [(e & _ & E) | (cm & Hcm & E)]; rewrite E; clear E; [eauto|].
  apply getattr_inv in Hcm as (_ & o & Ho & Hc).
  unfold imsave.
  destruct (plt_imsave thumbnail_path image cm) as [png|e] eqn:Hsave;
    [|eauto].
  right. exists o, cm, image, png. auto.
Qed.

(** X13: [create_thumbnail] never raises and does one of two things:
    it prints one error line and writes nothing, or it prints nothing and
    writes at [thumbnail_path] what [plt.imsave] renders with the colour
    map of the instance.  Instances, clock and the other files are as
    before. *)
Theorem create_thumbnail_outcome self thumbnail_path factor st :
  (exists e,
      create_thumbnail self thumbnail_path factor st
        = (Ok tt, reported e st)) \/
  (exists o cm image png,
      heap st !! self = Some o /\ cmap o = Some cm /\
      plt_imsave thumbnail_path image cm = Ok png /\
      create_thumbnail self thumbnail_path factor st
        = (Ok tt, saved thumbnail_path png st)).
Proof.
  rewrite create_thumbnail_eq.
  destruct (create_thumbnail_try_cases self thumbnail_path factor st)
    as [(e & E) | (o & cm & image & png & Ho & Hc & Hs & E)]; rewrite E.
  - left. eauto.
  - right. exists o, cm, image, png. auto.
Qed.

Lemma create_thumbnail_resample_raise
    self thumbnail_path factor st o u dataset e :
  heap st !! self = Some o ->
  uri o = Some u ->
  rasterio_open (str_replace "s3://" "/vsis3/" u) = Ok dataset ->
  resample dataset factor st = (Raise e, st) ->
  create_thumbnail self thumbnail_path factor st = (Ok tt, reported e st).
Proof.
  intros Ho Hu Hd Hr. rewrite create_thumbnail_eq.
  unfold create_thumbnail_try.
  rewrite (bind_ok _ _ _ _ _ (getattr_ok _ _ _ _ _ _ Ho Hu)).
  unfold call at 1. unfold bind at 1. rewrite Hd.
  rewrite (bind_raise _ _ _ _ _ Hr). reflexivity.
Qed.

Lemma div_negative_divisor (a b : Z) : 0 < a -> b < 0 -> a `div` b < 0.
Proof.
  intros Ha Hb.
  pose proof (Z.div_mod a b ltac:(lia)) as Hdm.
  pose proof (Z.mod_neg_bound a b Hb) as Hm. nia.
Qed.

(** X14: on a single-band raster at least [factor] wide and high, with
    [factor] positive, when the band is read and reprojected and
    [plt.imsave] renders it, [create_thumbnail] writes that rendering of
    the band, reprojected from the full grid into a grid of
    [height // factor] rows and [width // factor] columns, at
    [thumbnail_path], and prints nothing. *)
Theorem create_thumbnail_single_band
    self thumbnail_path factor st o u cm dataset data source r png :
  heap st !! self = Some o ->
  uri o = Some u ->
  cmap o = Some cm ->
  rasterio_open (str_replace "s3://" "/vsis3/" u) = Ok dataset ->
  count dataset = 1%nat ->
  0 < factor <= width dataset ->
  factor <= height dataset ->
  read_window dataset (mkWindow 0 0 (width dataset) (height dataset))
    = Ok data ->
  data !! 0%nat = Some source ->
  let new_width := width dataset `div` factor in
  let new_height := height dataset `div` factor in
  reproject source
            (uninitialized new_height new_width (dtype dataset))
            (transform dataset) (crs dataset)
            (affine_mul (transform dataset)
               (affine_scale (int_truediv (width dataset) new_width)
                             (int_truediv (height dataset) new_height)))
            (crs dataset) average = Ok r ->
  plt_imsave thumbnail_path r cm = Ok png ->
  create_thumbnail self thumbnail_path factor st
    = (Ok tt, saved thumbnail_path png st).
Proof.
  intros Ho Hu Hc Hd Hcount Hw Hh Hread Hsrc new_width new_height Hrep
         Hsave.
  assert (Hnw : 0 < new_width).
  { apply Z.div_str_pos. lia. }
  assert (Hnh : 0 < new_height).
  { apply Z.div_str_pos. lia. }
  rewrite create_thumbnail_eq. unfold create_thumbnail_try.
  rewrite (bind_ok _ _ _ _ _ (getattr_ok _ _ _ _ _ _ Ho Hu)).
  unfold call at 1. unfold bind at 1. rewrite Hd.
  assert (Hres : resample dataset factor st = (Ok [r], st)).
  { unfold resample. unfold call at 1. unfold bind at 1. rewrite Hread.
    unfold floordiv, truediv, np_empty. fold new_width new_height.
    destruct (decide (factor = 0)) as [?|_]; [lia|].
    unfold ret at 1. unfold bind at 1.
    unfold ret at 1. unfold bind at 1.
    destruct (decide (new_width = 0)) as [?|_]; [lia|].
    unfold ret at 1. unfold bind at 1.
    destruct (decide (new_height = 0)) as [?|_]; [lia|].
    unfold ret at 1. unfold bind at 1.
    destruct (decide (new_height < 0 \/ new_width < 0)) as [?|_]; [lia|].
    unfold ret at 1. unfold bind at 1.
    rewrite Hcount. cbn [seq replicate reproject_loop].
    erewrite bind_ok; [| apply index_ok; exact Hsrc].
    erewrite bind_ok; [| apply index_ok; reflexivity].
    unfold call at 1. unfold bind at 1. rewrite Hrep. reflexivity. }
  rewrite (bind_ok _ _ _ _ _ Hres).
  cbn [np_squeeze0]. unfold ret at 1. unfold bind at 1.
  rewrite (bind_ok _ _ _ _ _ (getattr_ok _ _ _ _ _ _ Ho Hc)).
  unfold imsave. rewrite Hsave. reflexivity.
Qed.

(** X15: when the raster is narrower or lower than a positive [factor],
    the reduced grid has a zero side: [create_thumbnail] prints "division
    by zero" and writes no file. *)
Theorem create_thumbnail_small_raster
    self thumbnail_path factor st o u dataset data :
  heap st !! self = Some o ->
  uri o = Some u ->
  rasterio_open (str_replace "s3://" "/vsis3/" u) = Ok dataset ->
  read_window dataset (mkWindow 0 0 (width dataset) (height dataset))
    = Ok data ->
  0 <= width dataset -> 0 <= height dataset ->
  width dataset < factor \/ height dataset < factor ->
  create_thumbnail self thumbnail_path factor st
    = (Ok tt, reported ZeroDivisionError st).
Proof.
  intros Ho Hu Hd Hread Hw Hh Hsmall.
  eapply create_thumbnail_resample_raise; eauto.
  unfold resample. unfold call at 1. unfold bind at 1. rewrite Hread.
  unfold floordiv, truediv.
  destruct (decide (factor = 0)) as [?|_]; [lia|].
  unfold ret at 1. unfold bind at 1.
  unfold ret at 1. unfold bind at 1.
  destruct (decide (width dataset `div` factor = 0)) as [_|Hnw];
    [reflexivity|].
  unfold ret at 1. unfold bind at 1.
  destruct (decide (height dataset `div` factor = 0)) as [_|Hnh];
    [reflexivity|].
  exfalso. destruct Hsmall as [Hs|Hs].
  - apply Hnw. apply Z.div_small. lia.
  - apply Hnh. apply Z.div_small. lia.
Qed.

(** X16: a [factor] of zero makes [create_thumbnail] print "integer
    division or modulo by zero", and a negative one, on a raster with
    pixels, "negative dimensions are not allowed"; in both cases no file
    is written. *)
Theorem create_thumbnail_nonpositive_factor
    self thumbnail_path factor st o u dataset data :
  heap st !! self = Some o ->
  uri o = Some u ->
  rasterio_open (str_replace "s3://" "/vsis3/" u) = Ok dataset ->
  read_window dataset (mkWindow 0 0 (width dataset) (height dataset))
    = Ok data ->
  (factor = 0 ->
   create_thumbnail self thumbnail_path factor st
     = (Ok tt, reported IntZeroDivisionError st)) /\
  (factor < 0 -> 0 < width dataset -> 0 < height dataset ->
   create_thumbnail self thumbnail_path factor st
     = (Ok tt, reported NegativeDimensions st)).
Proof.
  intros Ho Hu Hd Hread. split.
  - intros ->. eapply create_thumbnail_resample_raise; eauto.
    unfold resample. unfold call at 1. unfold bind at 1. rewrite Hread.
    reflexivity.
  - intros Hf Hw Hh. eapply create_thumbnail_resample_raise; eauto.
    pose proof (div_negative_divisor _ _ Hw Hf) as Hnw.
    pose proof (div_negative_divisor _ _ Hh Hf) as Hnh.
    unfold resample. unfold call at 1. unfold bind at 1. rewrite Hread.
    unfold floordiv, truediv, np_empty.
    destruct (decide (factor = 0)) as [?|_]; [lia|].
    unfold ret at 1. unfold bind at 1.
    unfold ret at 1. unfold bind at 1.
    destruct (decide (width dataset `div` factor = 0)) as [?|_]; [lia|].
    unfold ret at 1. unfold bind at 1.
    destruct (decide (height dataset `div` factor = 0)) as [?|_]; [lia|].
    unfold ret at 1. unfold bind at 1.
    destruct (decide (height dataset `div` factor < 0
                      \/ width dataset `div` factor < 0)) as [_|N];
      [reflexivity | lia].
Qed.

(** *** Outcomes of [to_pystac_item] *)

(** X17: when [bbox_4326] raises on an instance that has its footprint,
    [to_pystac_item] raises the same exception; the clock has not been
    read and no thumbnail has been attempted. *)
Theorem to_pystac_item_propagates
    self item_id thumbnail_path new_thumbnail st o geom e :
  heap st !! self = Some o ->
  _footprint_4326 o = Some geom ->
  bbox_4326 self st = (Raise e, st) ->
  to_pystac_item self item_id thumbnail_path new_thumbnail st
    = (Raise e, st).
Proof.
  intros Ho Hf Hb. unfold to_pystac_item.
  rewrite (bind_ok _ _ _ _ _ (getattr_ok _ _ _ _ _ _ Ho Hf)).
  apply bind_raise. exact Hb.
Qed.

Lemma item_properties_size (pb : list float) pw created updated :
  size (item_properties pb pw created updated) = 7%nat.
Proof.
  unfold item_properties. rewrite insert_insert_eq.
  repeat (rewrite map_size_insert_None;
          [| repeat (rewrite lookup_insert_ne by discriminate);
             apply lookup_empty]).
  rewrite map_size_empty. reflexivity.
Qed.

(** X18: the properties of a returned item have seven keys: the two
    fixed project tags, the native bounding box and projection of the
    instance, the software tag, and [created] and [updated], which render
    the two successive clock readings of the call. *)
Theorem to_pystac_item_properties
    self item_id thumbnail_path new_thumbnail st item st' :
  to_pystac_item self item_id thumbnail_path new_thumbnail st
    = (Ok item, st') ->
  exists o proj_bbox proj_wkt2,
    heap st !! self = Some o /\
    _bbox o = Some proj_bbox /\ projection o = Some proj_wkt2 /\
    id item = item_id /\
    size (properties item) = 7%nat /\
    properties item !! "frd:proj" = Some (PStr "kanawha") /\
    properties item !! "frd:project_status" = Some (PStr "FFRD pilot") /\
    properties item !! "proj:bbox" = Some (PFloats proj_bbox) /\
    properties item !! "proj:wkt2" = Some (PStr proj_wkt2) /\
    properties item !! "processing:software"
      = Some (PDict {["frd-to-stac" := "2023.11.04"]}) /\
    properties item !! "created"
      = Some (PStr (datetime_to_str (clock (ticks st)))) /\
    properties item !! "updated"
      = Some (PStr (datetime_to_str (clock (S (ticks st))))).
Proof.
  intros H. pose proof H as H'.
  apply to_pystac_item_inv in H' as (o & geom & dt & bb & Ho & Hf & Ht & Hb).
  destruct (to_pystac_item_ok self item_id thumbnail_path new_thumbnail st
              o geom dt bb Ho Hf Ht Hb) as (pb & pw & Hpb & Hpw & E).
  cbv zeta in E. rewrite E in H. exists o, pb, pw.
  split; [exact Ho|]. split; [exact Hpb|]. split; [exact Hpw|].
  assert (Hitem : id item = item_id /\
                  properties item
                  = item_properties pb pw (clock (ticks st))
                                    (clock (S (ticks st)))).
  { destruct new_thumbnail; injection H as <- <-; split; reflexivity. }
  destruct Hitem as (Hid & ->). split; [exact Hid|].
  split; [apply item_properties_size|].
  unfold item_properties.
  repeat split;
    repeat (rewrite lookup_insert_ne by discriminate);
    apply lookup_insert_eq.
Qed.

(** X19: with [new_thumbnail=True] on an instance whose raster does not
    have exactly one band, the item still lists the asset ["thumbnail"],
    while no file was written: the only trace of the failure is the
    printed line. *)
Theorem to_pystac_item_lists_missing_thumbnail
    self item_id thumbnail_path st o geom dt bb u dataset :
  heap st !! self = Some o ->
  _footprint_4326 o = Some geom ->
  temporal o = Some dt ->
  bbox_4326 self st = (Ok bb, st) ->
  uri o = Some u ->
  rasterio_open (str_replace "s3://" "/vsis3/" u) = Ok dataset ->
  count dataset <> 1%nat ->
  exists item e st',
    to_pystac_item self item_id thumbnail_path true st = (Ok item, st') /\
    assets item !! "thumbnail" = Some thumbnail_asset /\
    files st' = files st /\
    console st' = console st ++ ["An error occurred: " +:+ exn_str e].
Proof.
  intros Ho Hf Ht Hb Hu Hd Hc.
  destruct (to_pystac_item_ok self item_id thumbnail_path true st
              o geom dt bb Ho Hf Ht Hb) as (pb & pw & _ & _ & E).
  cbv zeta in E.
  set (st1 := mkState (heap st) (S (S (ticks st))) (console st) (files st))
    in *.
  destruct (create_thumbnail_try_multiband
              self thumbnail_path 4 st1 o u dataset Ho Hu Hd Hc)
    as (e & Htry & _).
  rewrite create_thumbnail_eq, Htry in E. cbn [snd] in E.
  eexists _, e, _. split; [exact E|].
  split; [apply lookup_insert_eq|]. split; reflexivity.
Qed.

(** X20: [to_pystac_item] never changes an instance and, when it returns,
    has read the clock twice; without thumbnail it prints and writes
    nothing, and with thumbnail it changes no file other than the one at
    [thumbnail_path]. *)
Theorem to_pystac_item_frame
    self item_id thumbnail_path new_thumbnail st item st' :
  to_pystac_item self item_id thumbnail_path new_thumbnail st
    = (Ok item, st') ->
  heap st' = heap st /\
  ticks st' = S (S (ticks st)) /\
  (new_thumbnail = false ->
   console st' = console st /\ files st' = files st) /\
  (forall fname, fname <> thumbnail_path ->
                 files st' !! fname = files st !! fname).
Proof.
  intros H. pose proof H as H'.
  apply to_pystac_item_inv in H' as (o & geom & dt & bb & Ho & Hf & Ht & Hb).
  destruct (to_pystac_item_ok self item_id thumbnail_path new_thumbnail st
              o geom dt bb Ho Hf Ht Hb) as (pb & pw & _ & _ & E).
  cbv zeta in E. rewrite E in H. clear E.
  destruct new_thumbnail.
  - set (st1 := mkState (heap st) (S (S (ticks st))) (console st)
                        (files st)) in *.
    rewrite create_thumbnail_eq in H.
    destruct (create_thumbnail_try_cases self thumbnail_path 4 st1)
      as [(e & E) | (o' & cm & image & png & _ & _ & _ & E)];
      rewrite E in H; injection H as _ <-; cbn [heap ticks console files snd].
    + repeat split; try reflexivity; discriminate.
    + repeat split; try reflexivity; try discriminate.
      intros fname Hne. apply lookup_insert_ne. congruence.
  - injection H as _ <-. cbn [heap ticks console files].
    repeat split; reflexivity.
Qed.

(** *** The path of the raster *)

Lemma prefix_append (old r : string) : String.prefix old (old +:+ r) = true.
Proof.
  induction old as [|c old IH].
  - change ("" +:+ r) with r. destruct r; reflexivity.
  - change (String c old +:+ r) with (String c (old +:+ r)).
    cbn [String.prefix].
    destruct (Ascii.ascii_dec c c) as [_|N]; [exact IH | contradiction].
Qed.

Lemma str_replace_from_skip (t old new r : string) :
  str_replace_from (String.length t) old new (t +:+ r)
  = str_replace_from 0 old new r.
Proof. induction t as [|c t IH]; [reflexivity | exact IH]. Qed.

Lemma str_replace_occurrence (old new r : string) :
  old <> "" ->
  str_replace old new (old +:+ r) = new +:+ str_replace old new r.
Proof.
  intros Hne. destruct old as [|c old]; [contradiction|].
  unfold str_replace.
  change (String c old +:+ r) with (String c (old +:+ r)).
  cbn [str_replace_from].
  change (String c (old +:+ r)) with (String c old +:+ r).
  rewrite prefix_append. cbn [String.length].
  replace (S (String.length old) - 1)%nat with (String.length old) by lia.
  rewrite str_replace_from_skip. reflexivity.
Qed.

Lemma str_replace_absent (old new s : string) :
  occurs old s = false -> str_replace old new s = s.
Proof.
  unfold str_replace. induction s as [|c s IH]; [reflexivity|].
  cbn [occurs str_replace_from]. intros H.
  apply orb_false_iff in H as (Hp & Ho). rewrite Hp, (IH Ho). reflexivity.
Qed.

(** X21: on an instance made by [from_s3] from a bucket and a key in
    which "s3://" does not occur, [create_thumbnail] opens the very path
    [from_s3] opened, [/vsis3/bucket/key]. *)
Theorem thumbnail_opens_the_raster_of_from_s3
    bucket_name file_key cm st self st' :
  from_s3 bucket_name file_key cm st = (Ok (Some self), st') ->
  occurs "s3://" (bucket_name +:+ "/" +:+ file_key) = false ->
  exists o u dataset,
    heap st' !! self = Some o /\ uri o = Some u /\
    str_replace "s3://" "/vsis3/" u
      = "/vsis3/" +:+ bucket_name +:+ "/" +:+ file_key /\
    rasterio_open (str_replace "s3://" "/vsis3/" u) = Ok dataset.
Proof.
  intros H Hocc.
  assert (Hpath : str_replace "s3://" "/vsis3/"
                    ("s3://" +:+ bucket_name +:+ "/" +:+ file_key)
                  = "/vsis3/" +:+ bucket_name +:+ "/" +:+ file_key).
  { rewrite str_replace_occurrence by discriminate.
    rewrite (str_replace_absent _ _ _ Hocc). reflexivity. }
  destruct (from_s3_try bucket_name file_key cm st) as [[s|e] st1] eqn:E.
  - rewrite (from_s3_on_ok _ _ _ _ _ _ E) in H. injection H as -> ->.
    apply from_s3_try_inv in E
      as (dataset & c & tr & Hopen & _ & _ & _ & _ & ->).
    eexists _, _, dataset. split; [cbn [heap]; apply lookup_insert_eq|].
    split; [reflexivity|]. split; [exact Hpath|].
    rewrite Hpath. exact Hopen.
  - rewrite (from_s3_on_raise _ _ _ _ _ _ E) in H. discriminate H.
Qed.

(** *** From the factory to the catalog item *)

(** X22: [to_pystac_item] returns on every instance made by [from_s3].
    The item has as datetime the clock reading of the constructor, as
    bounding box the transformed corners (left, bottom) and (right, top)
    of the raster, and as [proj:bbox] and [proj:wkt2] its bounds and the
    string of its coordinate reference system. *)
Theorem from_s3_then_to_pystac_item
    bucket_name file_key cm st self st' item_id thumbnail_path
    new_thumbnail :
  from_s3 bucket_name file_key cm st = (Ok (Some self), st') ->
  exists dataset c tr item st'',
    rasterio_open ("/vsis3/" +:+ bucket_name +:+ "/" +:+ file_key)
      = Ok dataset /\
    crs dataset = Some c /\
    from_crs (to_string c) "epsg:4326" true = Ok tr /\
    to_pystac_item self item_id thumbnail_path new_thumbnail st'
      = (Ok item, st'') /\
    item_datetime item = clock (S (ticks st)) /\
    item_bbox item
      = list_of_pair (tr (left (bounds dataset)) (bottom (bounds dataset)))
        ++ list_of_pair (tr (right (bounds dataset)) (top (bounds dataset)))
    /\
    properties item !! "proj:bbox"
      = Some (PFloats [left (bounds dataset); bottom (bounds dataset);
                       right (bounds dataset); top (bounds dataset)]) /\
    properties item !! "proj:wkt2" = Some (PStr (to_string c)).
Proof.
  intros H.
  destruct (from_s3_try bucket_name file_key cm st) as [[s|e] st1] eqn:E.
  2: { rewrite (from_s3_on_raise _ _ _ _ _ _ E) in H. discriminate H. }
  rewrite (from_s3_on_ok _ _ _ _ _ _ E) in H. injection H as -> ->.
  apply from_s3_try_inv in E
    as (dataset & c & tr & Hopen & Hcrs & Htr & _ & _ & ->).
  match goal with
  | |- context [<[self := ?obj]> (heap st)] => set (o := obj)
  end.
  match goal with
  | |- context [to_pystac_item _ _ _ _ ?s] => set (st1 := s)
  end.
  assert (Ho : heap st1 !! self = Some o)
    by (cbn [st1 heap]; apply lookup_insert_eq).
  assert (Hb : bbox_4326 self st1
               = (Ok (list_of_pair (tr (left (bounds dataset))
                                       (bottom (bounds dataset)))
                      ++ list_of_pair (tr (right (bounds dataset))
                                          (top (bounds dataset)))), st1)).
  { eapply bbox_4326_ok; [exact Ho | reflexivity | exact Htr | reflexivity
                         | reflexivity..]. }
  destruct (to_pystac_item_ok self item_id thumbnail_path new_thumbnail st1
              o _ _ _ Ho eq_refl eq_refl Hb) as (pb & pw & Hpb & Hpw & Eq).
  cbv zeta in Eq. cbn in Hpb, Hpw. injection Hpb as <-. injection Hpw as <-.
  exists dataset, c, tr.
  destruct new_thumbnail; eexists _, _;
    (split; [exact Hopen|]; split; [exact Hcrs|]; split; [exact Htr|];
     split; [exact Eq|]);
    cbn [item_datetime item_bbox properties add_asset];
    (split; [reflexivity|]; split; [reflexivity|]);
    unfold item_properties;
    split; repeat (rewrite lookup_insert_ne by discriminate);
      apply lookup_insert_eq.
Qed.

End Behaviour.

(** * The properties at work in the small world *)

Section Runs.

Import Demo.

(** The instance made from [dry.tif]: its corners (0, 0) and (4000, 4000)
    go through [utm17]. *)
Lemma bbox_4326_transforms_corners_witness :
  exists b,
    bbox_4326 0%nat (loaded "dry.tif") = (Ok b, loaded "dry.tif") /\
    b = list_of_pair (utm17 0 0) ++ list_of_pair (utm17 4000 4000) /\
    length b = 4%nat.
Proof.
  apply (bbox_4326_transforms_corners (L := libraries)
           0%nat (loaded "dry.tif") (cog "dry.tif") "EPSG:26917" utm17
           0 0 4000 4000);
    vm_compute; reflexivity.
Defined.

(** A constructor call given the [temporal] "1999-12-31" stores the
    first reading of the clock. *)
Lemma COG_temporal_is_construction_time_witness :
  exists o,
    heap built.2 !! 0%nat = Some o /\
    temporal o = Some (clock (ticks empty_state)).
Proof.
  apply (proj2 (COG_temporal_is_construction_time (L := libraries)
                  "s3://frd/dry.tif" [0; 0; 4000; 4000] (1000, 1000)
                  "EPSG:26917" "Blues" empty_state)
               (TStr "1999-12-31") 0%nat built.2).
  vm_compute. reflexivity.
Defined.

(** The footprint of that instance. *)
Lemma footprint_is_bbox_4326_rectangle_witness :
  exists o footprint minx miny maxx maxy,
    heap built.2 !! 0%nat = Some o /\
    bbox_4326 0%nat built.2 = (Ok [minx; miny; maxx; maxy], built.2) /\
    _create_footprint 0%nat built.2 = (Ok footprint, built.2) /\
    _footprint_4326 o = Some (mapping footprint) /\
    vertices footprint =
      [[minx; miny]; [minx; maxy]; [maxx; maxy]; [maxx; miny]] /\
    length (vertices footprint) = 4%nat.
Proof.
  apply (footprint_is_bbox_4326_rectangle (L := libraries)
           "s3://frd/dry.tif" [0; 0; 4000; 4000] (TStr "1999-12-31")
           (1000, 1000) "EPSG:26917" "Blues" empty_state 0%nat built.2).
  vm_compute. reflexivity.
Defined.

(** A key the bucket does not hold. *)
Lemma from_s3_failure_is_None_witness :
  from_s3 "frd" "missing.tif" "Blues" empty_state =
    (Ok None,
     reported (Exn "RasterioIOError" "No such file or directory")
              empty_state).
Proof.
  apply (proj1 (proj2 (from_s3_failure_is_None (L := libraries)
                         "frd" "missing.tif" "Blues" empty_state))).
  vm_compute. reflexivity.
Defined.

(** [dry.tif] holds nothing but its nodata value. *)
Lemma all_cells_dry_spec_witness :
  exists b,
    all_cells_dry 0%nat (loaded "dry.tif")
      = (Ok (Some b), loaded "dry.tif") /\
    (b = true <->
     Forall (Forall (equals_nodata (Some (-9999)))) (grid (-9999))) /\
    (b = false <->
     Exists (Exists (fun px => ~ equals_nodata (Some (-9999)) px))
            (grid (-9999))).
Proof.
  refine (proj1 (all_cells_dry_spec (L := libraries)
                   0%nat (loaded "dry.tif") (cog "dry.tif")
                   "s3://frd/dry.tif" "frd" "dry.tif" _ _ _)
                dry_tif (grid (-9999)) (Some (-9999)) _ _ _);
    vm_compute; reflexivity.
Defined.

(** [rgb.tif] has three bands. *)
Lemma create_thumbnail_needs_single_band_witness :
  exists e,
    create_thumbnail_try 0%nat "thumbnail.png" 4 (loaded "rgb.tif")
      = (Raise e, loaded "rgb.tif") /\
    create_thumbnail 0%nat "thumbnail.png" 4 (loaded "rgb.tif")
      = (Ok tt, reported e (loaded "rgb.tif")) /\
    files (reported e (loaded "rgb.tif")) = files (loaded "rgb.tif") /\
    (forall resampled,
        resample rgb_tif 4 (loaded "rgb.tif")
          = (Ok resampled, loaded "rgb.tif") ->
        length resampled = count rgb_tif /\
        np_squeeze0 resampled (loaded "rgb.tif")
          = (Raise SqueezeError, loaded "rgb.tif") /\
        e = SqueezeError).
Proof.
  refine (proj1 (create_thumbnail_needs_single_band (L := libraries)
                   0%nat "thumbnail.png" 4 (loaded "rgb.tif")
                   (cog "rgb.tif") "s3://frd/rgb.tif" rgb_tif _ _ _) _).
  - vm_compute. reflexivity.
  - vm_compute. reflexivity.
  - vm_compute. reflexivity.
  - vm_compute. lia.
Defined.

(** What [to_pystac_item] reads from the instance made from [dry.tif]. *)
Lemma dry_is_readable :
  heap (loaded "dry.tif") !! 0%nat = Some (cog "dry.tif") /\
  _footprint_4326 (cog "dry.tif")
    = Some [[-81; 38]; [-81; 42]; [-77; 42]; [-77; 38]; [-81; 38]] /\
  temporal (cog "dry.tif") = Some 1700000001 /\
  bbox_4326 0%nat (loaded "dry.tif")
    = (Ok [-81; 38; -77; 42], loaded "dry.tif").
Proof. repeat split; vm_compute; reflexivity. Defined.

(** The item of [dry.tif], with its thumbnail. *)
Lemma to_pystac_item_assets_witness :
  exists item st',
    to_pystac_item 0%nat "dry" "thumbnail.png" true (loaded "dry.tif")
      = (Ok item, st') /\
    assets item
      = <["thumbnail" := thumbnail_asset]> {["cog" := cog_asset]} /\
    size (assets item) = 2%nat.
Proof.
  destruct dry_is_readable as (Ho & Hf & Ht & Hb).
  destruct (proj2 (proj2 (to_pystac_item_assets (L := libraries)
                            0%nat "dry" "thumbnail.png" (loaded "dry.tif")))
                  _ _ _ _ true Ho Hf Ht Hb) as (item & st' & E).
  exists item, st'. split; [exact E|].
  destruct (proj1 (proj2 (to_pystac_item_assets (L := libraries)
                            0%nat "dry" "thumbnail.png" (loaded "dry.tif")))
                  item st' E) as (Ha & Hs & _).
  split; assumption.
Defined.

(** The item of [dry.tif], without thumbnail. *)
Lemma to_pystac_item_fields_witness :
  exists item st' o,
    to_pystac_item 0%nat "dry" "thumbnail.png" false (loaded "dry.tif")
      = (Ok item, st') /\
    heap (loaded "dry.tif") !! 0%nat = Some o /\
    _footprint_4326 o = Some (item_geometry item) /\
    bbox_4326 0%nat (loaded "dry.tif")
      = (Ok (item_bbox item), loaded "dry.tif") /\
    temporal o = Some (item_datetime item) /\
    length (stac_extensions item) = 3%nat.
Proof.
  destruct dry_is_readable as (Ho & Hf & Ht & Hb).
  destruct (to_pystac_item_ok (L := libraries)
              0%nat "dry" "thumbnail.png" false (loaded "dry.tif")
              _ _ _ _ Ho Hf Ht Hb) as (pb & pw & _ & _ & E).
  cbv zeta in E.
  destruct (to_pystac_item_fields (L := libraries) _ _ _ _ _ _ _ E)
    as (o & H1 & H2 & H3 & H4 & _ & H6).
  eexists _, _, o. split; [exact E|]. auto 10.
Defined.

(** C6: the raster [dry.tif] carries no TIFFTAG_DATETIME tag and its
    object was last modified at [last_modified]; the instance [from_s3]
    makes from it has as capture time the reading of the clock taken
    in the constructor, not [last_modified]. *)
Theorem from_s3_ignores_last_modified :
  rasterio_open "/vsis3/frd/dry.tif" = Ok dry_tif /\
  tags dry_tif "TIFFTAG_DATETIME" = ∅ /\
  get_object_datetime "frd" "dry.tif" = Ok last_modified /\
  from_s3 "frd" "dry.tif" "Blues" empty_state
    = (Ok (Some 0%nat), loaded "dry.tif") /\
  temporal <$> heap (loaded "dry.tif") !! 0%nat
    = Some (Some (clock 1)) /\
  clock 1 <> last_modified.
Proof.
  repeat split; try (vm_compute; reflexivity).
  vm_compute. discriminate.
Qed.

(** After [self._bbox] is assigned anew, the item carries the bounding
    box of the new value and the footprint of the old one. *)
Lemma item_bbox_is_recomputed :
  let st := (setattr 0%nat (set_bbox [1000; 1000; 2000; 2000])
                     (loaded "dry.tif")).2 in
  match (to_pystac_item 0%nat "dry" "thumbnail.png" false st).1 with
  | Ok item => Some (item_bbox item, item_geometry item)
  | Raise _ => None
  end
  = Some ([-80; 39; -79; 40],
          [[-81; 38]; [-81; 42]; [-77; 42]; [-77; 38]; [-81; 38]]).
Proof. vm_compute. reflexivity. Qed.

End Runs.

(** * The further behaviour at work in the small world *)

Section MoreRuns.

Import Demo.

(** The instance made from [dry.tif]. *)
Lemma bbox_4326_outcome_witness :
  bbox_4326 0%nat (loaded "dry.tif")
    = (Ok [-81; 38; -77; 42], loaded "dry.tif").
Proof.
  apply (bbox_4326_outcome (L := libraries)
           0%nat (loaded "dry.tif") (cog "dry.tif") "EPSG:26917"
           [0; 0; 4000; 4000]);
    vm_compute; reflexivity.
Defined.

(** A projection the transformer does not know. *)
Lemma COG_new_invalid_projection_witness :
  exists st',
    COG_new "s3://frd/dry.tif" [0; 0; 4000; 4000] TNone (1000, 1000)
            "EPSG:0" "Blues" empty_state
      = (Raise (Exn "CRSError" "Invalid projection"), st')
    /\ modifies_only (fresh (dom (heap empty_state))) empty_state st'.
Proof.
  apply (COG_new_invalid_projection (L := libraries)
           empty_state "s3://frd/dry.tif" [0; 0; 4000; 4000] TNone
           (1000, 1000) "EPSG:0" "Blues").
  vm_compute. reflexivity.
Defined.

(** A bounding box of three numbers. *)
Lemma COG_new_short_bbox_witness :
  exists st',
    COG_new "s3://frd/dry.tif" [0; 0; 4000] TNone (1000, 1000)
            "EPSG:26917" "Blues" empty_state
      = (Raise IndexError, st')
    /\ modifies_only (fresh (dom (heap empty_state))) empty_state st'.
Proof.
  apply (COG_new_short_bbox (L := libraries)
           empty_state "s3://frd/dry.tif" [0; 0; 4000] TNone
           (1000, 1000) "EPSG:26917" "Blues" utm17).
  - vm_compute. reflexivity.
  - simpl. lia.
Defined.

(** The direct constructor call. *)
Lemma COG_new_stores_arguments_witness :
  exists o,
    heap built.2 !! 0%nat = Some o /\
    uri o = Some "s3://frd/dry.tif" /\
    _bbox o = Some [0; 0; 4000; 4000] /\
    resolution o = Some (1000, 1000) /\
    projection o = Some "EPSG:26917" /\
    cmap o = Some "Blues" /\
    bbox 0%nat built.2 = (Ok [0; 0; 4000; 4000], built.2).
Proof.
  apply (COG_new_stores_arguments (L := libraries)
           empty_state "s3://frd/dry.tif" [0; 0; 4000; 4000]
           (TStr "1999-12-31") (1000, 1000) "EPSG:26917" "Blues" 0%nat
           built.2).
  vm_compute. reflexivity.
Defined.

Lemma COG_new_frame_witness :
  heap empty_state !! 0%nat = None /\
  modifies_only 0%nat empty_state built.2 /\
  ticks built.2 = S (ticks empty_state).
Proof.
  apply (COG_new_frame (L := libraries)
           empty_state "s3://frd/dry.tif" [0; 0; 4000; 4000]
           (TStr "1999-12-31") (1000, 1000) "EPSG:26917" "Blues" 0%nat
           built.2).
  vm_compute. reflexivity.
Defined.

(** The factory on [dry.tif]. *)
Lemma from_s3_descriptor_witness :
  exists dataset c o,
    rasterio_open ("/vsis3/" +:+ "frd" +:+ "/" +:+ "dry.tif") = Ok dataset /\
    crs dataset = Some c /\
    heap (loaded "dry.tif") !! 0%nat = Some o /\
    uri o = Some ("s3://" +:+ "frd" +:+ "/" +:+ "dry.tif") /\
    _bbox o = Some [left (bounds dataset); bottom (bounds dataset);
                    right (bounds dataset); top (bounds dataset)] /\
    resolution o = Some (res dataset) /\
    projection o = Some (to_string c) /\
    cmap o = Some "Blues".
Proof.
  apply (from_s3_descriptor (L := libraries)
           "frd" "dry.tif" "Blues" empty_state 0%nat (loaded "dry.tif")).
  vm_compute. reflexivity.
Defined.

Lemma from_s3_succeeds_iff_witness :
  exists self st',
    from_s3 "frd" "dry.tif" "Blues" empty_state = (Ok (Some self), st').
Proof.
  apply (proj2 (from_s3_succeeds_iff (L := libraries)
                  "frd" "dry.tif" "Blues" empty_state)).
  exists dry_tif, (mkCRS "EPSG:26917"), utm17.
  split; [vm_compute; reflexivity|]. split; [vm_compute; reflexivity|].
  split; [vm_compute; reflexivity|].
  intros _. exists last_modified. vm_compute. reflexivity.
Defined.

(** The bucket whose last-modified times cannot be fetched. *)
Lemma from_s3_last_modified_failure_witness :
  from_s3 (L := offline) "frd" "dry.tif" "Blues" empty_state
    = (Ok None, reported (Exn "ClientError" "Access Denied") empty_state).
Proof.
  apply (from_s3_last_modified_failure (L := offline)
           "frd" "dry.tif" "Blues" empty_state plain_tif
           (mkCRS "EPSG:26917"));
    vm_compute; reflexivity.
Defined.

Lemma from_s3_frame_witness :
  files (loaded "dry.tif") = files empty_state /\
  (forall l o, heap empty_state !! l = Some o ->
               heap (loaded "dry.tif") !! l = Some o) /\
  heap empty_state !! 0%nat = None /\
  console (loaded "dry.tif") = console empty_state /\
  ticks (loaded "dry.tif") = S (S (ticks empty_state)).
Proof.
  apply (from_s3_frame (L := libraries)
           "frd" "dry.tif" "Blues" empty_state (Ok (Some 0%nat))
           (loaded "dry.tif")).
  vm_compute. reflexivity.
Defined.

(** An instance whose URI [split_s3_path] cannot split. *)
Lemma all_cells_dry_split_failure_witness :
  all_cells_dry 0%nat local.2
    = (Raise (Exn "ValueError" "not enough values to unpack"), local.2).
Proof.
  apply (all_cells_dry_split_failure (L := libraries) 0%nat local.2
           (constructed (L := libraries)
              "grid.tif" [0; 0; 4000; 4000] 1700000000
              (1000, 1000) "EPSG:4326" "Blues"
              (Polygon (T := types)
                 [[0; 0]; [0; 4000]; [4000; 4000]; [4000; 0]]))
           "grid.tif");
    vm_compute; reflexivity.
Defined.

(** A raster without nodata value, every pixel 7. *)
Lemma all_cells_dry_without_nodata_witness :
  exists b,
    all_cells_dry (L := offline) 0%nat (loaded "dry.tif")
      = (Ok (Some b), loaded "dry.tif") /\
    (b = true <-> Forall (fun row => row = []) (grid 7)).
Proof.
  apply (all_cells_dry_without_nodata (L := offline)
           0%nat (loaded "dry.tif") (cog "dry.tif") "s3://frd/dry.tif"
           "frd" "dry.tif" plain_tif (grid 7));
    vm_compute; reflexivity.
Defined.

(** On [dry.tif] the property is [True] and the state is as before. *)
Lemma all_cells_dry_frame_witness :
  (all_cells_dry 0%nat (loaded "dry.tif")).2 = loaded "dry.tif".
Proof.
  apply (all_cells_dry_frame (L := libraries) 0%nat (loaded "dry.tif")
           (Ok (Some true))).
  vm_compute. reflexivity.
Defined.

(** The thumbnail of [wet.tif]: one pixel. *)
Lemma create_thumbnail_single_band_witness :
  create_thumbnail 0%nat "thumbnail.png" 4 (loaded "wet.tif")
    = (Ok tt, saved "thumbnail.png" [[-9999]] (loaded "wet.tif")).
Proof.
  apply (create_thumbnail_single_band (L := libraries)
           0%nat "thumbnail.png" 4 (loaded "wet.tif") (cog "wet.tif")
           "s3://frd/wet.tif" "Blues" wet_tif
           [<[2%nat := [-9999; 3; -9999; -9999]]> (grid (-9999))]
           (<[2%nat := [-9999; 3; -9999; -9999]]> (grid (-9999)))
           [[-9999]] [[-9999]]);
    try (vm_compute; reflexivity); simpl; lia.
Defined.

(** A factor of 5 on a raster of 4 by 4 pixels. *)
Lemma create_thumbnail_small_raster_witness :
  create_thumbnail 0%nat "thumbnail.png" 5 (loaded "dry.tif")
    = (Ok tt, reported ZeroDivisionError (loaded "dry.tif")).
Proof.
  apply (create_thumbnail_small_raster (L := libraries)
           0%nat "thumbnail.png" 5 (loaded "dry.tif") (cog "dry.tif")
           "s3://frd/dry.tif" dry_tif [grid (-9999)]);
    try (vm_compute; reflexivity); simpl; lia.
Defined.

(** A factor of 0 and a factor of -2. *)
Lemma create_thumbnail_nonpositive_factor_witness :
  create_thumbnail 0%nat "thumbnail.png" 0 (loaded "dry.tif")
    = (Ok tt, reported IntZeroDivisionError (loaded "dry.tif")) /\
  create_thumbnail 0%nat "thumbnail.png" (-2) (loaded "dry.tif")
    = (Ok tt, reported NegativeDimensions (loaded "dry.tif")).
Proof.
  split.
  - apply (proj1 (create_thumbnail_nonpositive_factor (L := libraries)
                    0%nat "thumbnail.png" 0 (loaded "dry.tif")
                    (cog "dry.tif") "s3://frd/dry.tif" dry_tif
                    [grid (-9999)] eq_refl eq_refl eq_refl eq_refl)).
    reflexivity.
  - apply (proj2 (create_thumbnail_nonpositive_factor (L := libraries)
                    0%nat "thumbnail.png" (-2) (loaded "dry.tif")
                    (cog "dry.tif") "s3://frd/dry.tif" dry_tif
                    [grid (-9999)] eq_refl eq_refl eq_refl eq_refl));
      simpl; lia.
Defined.

(** The instance whose projection was overwritten. *)
Lemma to_pystac_item_propagates_witness :
  to_pystac_item 0%nat "dry" "thumbnail.png" true stale
    = (Raise (Exn "CRSError" "Invalid projection"), stale).
Proof.
  apply (to_pystac_item_propagates (L := libraries)
           0%nat "dry" "thumbnail.png" true stale
           (set_projection "EPSG:0" (cog "dry.tif"))
           [[-81; 38]; [-81; 42]; [-77; 42]; [-77; 38]; [-81; 38]]);
    vm_compute; reflexivity.
Defined.

(** The item of [dry.tif]. *)
Lemma to_pystac_item_properties_witness :
  exists item st',
    to_pystac_item 0%nat "dry" "thumbnail.png" false (loaded "dry.tif")
      = (Ok item, st') /\
    id item = "dry" /\
    size (properties item) = 7%nat /\
    properties item !! "proj:bbox" = Some (PFloats [0; 0; 4000; 4000]) /\
    properties item !! "proj:wkt2" = Some (PStr "EPSG:26917").
Proof.
  destruct dry_is_readable as (Ho & Hf & Ht & Hb).
  destruct (to_pystac_item_ok (L := libraries)
              0%nat "dry" "thumbnail.png" false (loaded "dry.tif")
              _ _ _ _ Ho Hf Ht Hb) as (pb & pw & Hpb & Hpw & E).
  cbv zeta in E.
  destruct (to_pystac_item_properties (L := libraries) _ _ _ _ _ _ _ E)
    as (o & pb' & pw' & Ho' & Hpb' & Hpw' & Hid & Hsize & _ & _ & Hbb & Hw
        & _).
  pose proof (eq_trans (eq_sym Ho) Ho') as Hoo. injection Hoo as <-.
  vm_compute in Hpb', Hpw'. injection Hpb' as <-. injection Hpw' as <-.
  eexists _, _. split; [exact E|]. auto.
Defined.

(** The item of [rgb.tif], three bands. *)
Lemma to_pystac_item_lists_missing_thumbnail_witness :
  exists item e st',
    to_pystac_item 0%nat "rgb" "thumbnail.png" true (loaded "rgb.tif")
      = (Ok item, st') /\
    assets item !! "thumbnail" = Some thumbnail_asset /\
    files st' = files (loaded "rgb.tif") /\
    console st'
      = console (loaded "rgb.tif")
        ++ ["An error occurred: " +:+ exn_str e].
Proof.
  apply (to_pystac_item_lists_missing_thumbnail (L := libraries)
           0%nat "rgb" "thumbnail.png" (loaded "rgb.tif") (cog "rgb.tif")
           [[-81; 38]; [-81; 42]; [-77; 42]; [-77; 38]; [-81; 38]]
           1700000001 [-81; 38; -77; 42] "s3://frd/rgb.tif" rgb_tif);
    try (vm_compute; reflexivity).
  vm_compute. lia.
Defined.

Lemma to_pystac_item_frame_witness :
  exists item st',
    to_pystac_item 0%nat "dry" "thumbnail.png" true (loaded "dry.tif")
      = (Ok item, st') /\
    heap st' = heap (loaded "dry.tif") /\
    ticks st' = S (S (ticks (loaded "dry.tif"))) /\
    forall fname, fname <> "thumbnail.png" ->
                  files st' !! fname = files (loaded "dry.tif") !! fname.
Proof.
  destruct dry_is_readable as (Ho & Hf & Ht & Hb).
  destruct (to_pystac_item_ok (L := libraries)
              0%nat "dry" "thumbnail.png" true (loaded "dry.tif")
              _ _ _ _ Ho Hf Ht Hb) as (pb & pw & _ & _ & E).
  cbv zeta in E.
  destruct (to_pystac_item_frame (L := libraries) _ _ _ _ _ _ _ E)
    as (Hh & Hk & _ & Hfiles).
  eexists _, _. split; [exact E|]. auto.
Defined.

(** The key [dry.tif] in the bucket [frd]. *)
Lemma thumbnail_opens_the_raster_of_from_s3_witness :
  exists o u dataset,
    heap (loaded "dry.tif") !! 0%nat = Some o /\ uri o = Some u /\
    str_replace "s3://" "/vsis3/" u
      = "/vsis3/" +:+ "frd" +:+ "/" +:+ "dry.tif" /\
    rasterio_open (str_replace "s3://" "/vsis3/" u) = Ok dataset.
Proof.
  apply (thumbnail_opens_the_raster_of_from_s3 (L := libraries)
           "frd" "dry.tif" "Blues" empty_state 0%nat (loaded "dry.tif"));
    vm_compute; reflexivity.
Defined.

(** A key in which "s3://" occurs: the thumbnail is looked for under
    another path than the one the factory opened. *)
Lemma thumbnail_path_of_odd_key :
  str_replace "s3://" "/vsis3/" ("s3://" +:+ "frd" +:+ "/" +:+ "a/s3://b.tif")
  = "/vsis3/frd/a//vsis3/b.tif".
Proof. vm_compute. reflexivity. Qed.

Lemma from_s3_then_to_pystac_item_witness :
  exists dataset c tr item st'',
    rasterio_open ("/vsis3/" +:+ "frd" +:+ "/" +:+ "dry.tif") = Ok dataset /\
    crs dataset = Some c /\
    from_crs (to_string c) "epsg:4326" true = Ok tr /\
    to_pystac_item 0%nat "dry" "thumbnail.png" false (loaded "dry.tif")
      = (Ok item, st'') /\
    item_datetime item = clock (S (ticks empty_state)) /\
    item_bbox item
      = list_of_pair (tr (left (bounds dataset)) (bottom (bounds dataset)))
        ++ list_of_pair (tr (right (bounds dataset)) (top (bounds dataset)))
    /\
    properties item !! "proj:bbox"
      = Some (PFloats [left (bounds dataset); bottom (bounds dataset);
                       right (bounds dataset); top (bounds dataset)]) /\
    properties item !! "proj:wkt2" = Some (PStr (to_string c)).
Proof.
  apply (from_s3_then_to_pystac_item (L := libraries)
           "frd" "dry.tif" "Blues" empty_state 0%nat (loaded "dry.tif")
           "dry" "thumbnail.png" false).
  vm_compute. reflexivity.
Defined.

End MoreRuns.
